(** * Verification of the emotion-driven code review assistant

    A shallow embedding of [submissions/kareena_mehta/emotion_code_reviewer.py]
    (class [EmotionCodeReviewer]) and the properties of its extraction,
    classification and feedback steps.

    Python [str] values are embedded as Rocq strings; a character is one of
    the code points U+0000 .. U+00FF, with the Unicode classification that
    Python's [str.isspace], [str.lower] and the [re] classes use on that
    range.  Floats are IEEE binary64 values, as in CPython. *)

From Stdlib Require Import Ascii PrimFloat.
From stdpp Require Import gmap strings list pretty.

(** ** Characters *)

Module Char.

Definition code (c : ascii) : nat := nat_of_ascii c.

Definition between (lo hi : nat) (c : ascii) : bool :=
  (lo <=? code c)%nat && (code c <=? hi)%nat.

(** [str.isspace] and the class [\s] of [re] (str patterns): TAB, LF, VT,
    FF, CR, the separators U+001C .. U+001F, SPACE, NEL and NBSP. *)
Definition isspace (c : ascii) : bool :=
  between 9 13 c || between 28 32 c || (code c =? 133)%nat
  || (code c =? 160)%nat.

(** The class [\w] of [re] (str patterns): alphanumeric code points and
    the underscore. *)
Definition isalnum (c : ascii) : bool :=
  between 48 57 c || between 65 90 c || between 97 122 c
  || (code c =? 170)%nat || between 178 179 c || (code c =? 181)%nat
  || between 185 186 c || between 188 190 c || between 192 214 c
  || between 216 246 c || between 248 255 c.

Definition isword (c : ascii) : bool :=
  isalnum c || (code c =? 95)%nat.

(** The class [[#/]]. *)
Definition ismarker (c : ascii) : bool :=
  Ascii.eqb c "#" || Ascii.eqb c "/".

(** [str.lower] on one character: A-Z and the upper-case letters of
    U+00C0 .. U+00DE (the multiplication sign U+00D7 is not a letter). *)
Definition lower (c : ascii) : ascii :=
  if between 65 90 c || (between 192 222 c && negb (code c =? 215)%nat)
  then ascii_of_nat (code c + 32) else c.

End Char.

(** ** Strings: the [str] methods the program calls *)

Module Str.

Fixpoint lower (s : string) : string :=
  match s with
  | "" => ""
  | String c s' => String (Char.lower c) (lower s')
  end.

(** [s.startswith(p)] *)
Fixpoint startswith (p s : string) : bool :=
  match p, s with
  | "", _ => true
  | String a p', String b s' => Ascii.eqb a b && startswith p' s'
  | String _ _, "" => false
  end.

(** [p in s] for strings: [p] occurs in [s] at some offset. *)
Fixpoint contains (p s : string) : bool :=
  startswith p s
  || match s with
     | "" => false
     | String _ s' => contains p s'
     end.

Fixpoint lstrip (s : string) : string :=
  match s with
  | "" => ""
  | String c s' => if Char.isspace c then lstrip s' else s
  end.

Fixpoint rstrip (s : string) : string :=
  match s with
  | "" => ""
  | String c s' =>
      match rstrip s' with
      | "" => if Char.isspace c then "" else String c ""
      | r => String c r
      end
  end.

(** [s.strip()]: leading and trailing whitespace removed. *)
Definition strip (s : string) : string := lstrip (rstrip s).

(** [s.split(sep)] for a one-character separator: the list of the
    fields between the separators, never empty. *)
Fixpoint split (sep : ascii) (s : string) : list string :=
  match s with
  | "" => [""]
  | String c s' =>
      if Ascii.eqb c sep then "" :: split sep s'
      else match split sep s' with
           | [] => [String c ""]
           | f :: fs => String c f :: fs
           end
  end.

(** [sep.join(l)] *)
Fixpoint join (sep : string) (l : list string) : string :=
  match l with
  | [] => ""
  | [x] => x
  | x :: l' => x +:+ sep +:+ join sep l'
  end.

(** [s[:n]] for [0 <= n] *)
Fixpoint take (n : nat) (s : string) : string :=
  match n, s with
  | S n', String c s' => String c (take n' s')
  | _, _ => ""
  end.

Definition nonempty (s : string) : bool :=
  match s with "" => false | _ => true end.

Fixpoint all (p : ascii -> bool) (s : string) : bool :=
  match s with
  | "" => true
  | String c s' => p c && all p s'
  end.

(** A string that does not begin with a character of the class. *)
Definition stops (p : ascii -> bool) (s : string) : bool :=
  match s with
  | "" => true
  | String c _ => negb (p c)
  end.

(** The longest prefix made of characters of the class, and what
    follows it. *)
Fixpoint take_while (p : ascii -> bool) (s : string) : string :=
  match s with
  | "" => ""
  | String c s' => if p c then String c (take_while p s') else ""
  end.

Fixpoint drop_while (p : ascii -> bool) (s : string) : string :=
  match s with
  | "" => ""
  | String c s' => if p c then drop_while p s' else s
  end.

End Str.

(** ** Regular expressions: the fragment of [re] the program uses

    A backtracking matcher in continuation-passing style, with greedy
    repetition of character classes, literal characters, sequencing, the
    anchor [^] (default flags: start of the subject only) and one capturing
    group. *)

Module Re.

Inductive regex : Type :=
| Bol                           (* ^ *)
| Chr (c : ascii)               (* a literal character *)
| Rep0 (cls : ascii -> bool)    (* cls* *)
| Rep1 (cls : ascii -> bool)    (* cls+ *)
| Cat (r1 r2 : regex)           (* r1 r2 *)
| Grp (r : regex).              (* ( r ), group 1 *)

(** The state of a match attempt: whether the current position is the
    start of the subject, the text still to read, and group 1. *)
Record mstate : Type := MState {
  at_bol : bool;
  rest : string;
  group1 : option string
}.

Section Matcher.
Context {R : Type}.

(** Greedy [cls*]: the longest run first, then shorter ones. *)
Fixpoint rep (cls : ascii -> bool) (b : bool) (s : string)
    (k : bool -> string -> option R) : option R :=
  match s with
  | String c s' =>
      if cls c then
        match rep cls false s' k with
        | Some x => Some x
        | None => k b s
        end
      else k b s
  | "" => k b s
  end.

Fixpoint mtch (r : regex) (st : mstate) (k : mstate -> option R)
    : option R :=
  match r with
  | Bol => if at_bol st then k st else None
  | Chr c =>
      match rest st with
      | String c' s' =>
          if Ascii.eqb c c' then k (MState false s' (group1 st)) else None
      | "" => None
      end
  | Rep0 cls =>
      rep cls (at_bol st) (rest st) (fun b s => k (MState b s (group1 st)))
  | Rep1 cls =>
      match rest st with
      | String c s' =>
          if cls c
          then rep cls false s' (fun b s => k (MState b s (group1 st)))
          else None
      | "" => None
      end
  | Cat r1 r2 => mtch r1 st (fun st' => mtch r2 st' k)
  | Grp r1 =>
      mtch r1 st (fun st' =>
        let n := String.length (rest st) - String.length (rest st') in
        k (MState (at_bol st') (rest st') (Some (Str.take n (rest st)))))
  end.
End Matcher.

(** The position after a run: the start-of-subject flag survives only an
    empty run. *)
Definition after_run (run : string) (b : bool) : bool :=
  match run with "" => b | _ => false end.

(** One attempt at the current position; the final state holds the text
    after the match and group 1. *)
Definition match_here (r : regex) (b : bool) (s : string) : option mstate :=
  mtch r (MState b s None) Some.

Fixpoint search_from (r : regex) (b : bool) (s : string) : option mstate :=
  match match_here r b s with
  | Some st => Some st
  | None =>
      match s with
      | String _ s' => search_from r false s'
      | "" => None
      end
  end.

(** [re.search(r, s)]: the leftmost offset at which [r] matches. *)
Definition search (r : regex) (s : string) : option mstate :=
  search_from r true s.

(** [m.group(1)] of a match object; the program only reads the group of
    patterns in which it always takes part. *)
Definition group (m : mstate) : string := default "" (group1 m).

(** [re.sub(r, '', s)]: every non-overlapping match, found left to right,
    is deleted.  An empty match deletes nothing and the scan moves on by
    one character.  [fuel] bounds the number of scan steps. *)
Fixpoint sub_from (fuel : nat) (r : regex) (b : bool) (s : string) : string :=
  match fuel with
  | 0 => s
  | S fuel' =>
      match match_here r b s with
      | Some st =>
          if (String.length (rest st) <? String.length s)%nat
          then sub_from fuel' r false (rest st)
          else match s with
               | String c s' => String c (sub_from fuel' r false s')
               | "" => ""
               end
      | None =>
          match s with
          | String c s' => String c (sub_from fuel' r false s')
          | "" => ""
          end
      end
  end.

Definition sub_empty (r : regex) (s : string) : string :=
  sub_from (S (String.length s)) r true s.

End Re.

(** ** Effects: console output, model invocations, exceptions *)

Inductive model : Type := EmotionModel | SentimentModel.

(** What the program can observe and change outside its own values: the
    lines printed so far, the texts handed to the two pretrained models so
    far (both oldest first), and the clock that [datetime.now()] reads. *)
Record world : Type := World {
  stdout : list string;
  invocations : list (model * string);
  clock : string
}.

(** A computation returns a value or raises an exception (an instance of
    [Exception], carried as its [str()] text). *)
Inductive result (A : Type) : Type :=
| Ok (a : A)
| Raise (e : string).
Arguments Ok {A} a.
Arguments Raise {A} e.

Definition M (A : Type) : Type := world -> result A * world.

Definition ret {A} (a : A) : M A := fun w => (Ok a, w).

Definition bind {A B} (m : M A) (f : A -> M B) : M B :=
  fun w =>
    match m w with
    | (Ok a, w') => f a w'
    | (Raise e, w') => (Raise e, w')
    end.

Notation "'let*' x ':=' m 'in' k" := (bind m (fun x => k))
  (at level 10, x name, m at level 100, k at level 200).

(** [try: body except Exception as e: handler(e)] *)
Definition try_except {A} (body : M A) (handler : string -> M A) : M A :=
  fun w =>
    match body w with
    | (Ok a, w') => (Ok a, w')
    | (Raise e, w') => handler e w'
    end.

(** [print(line)] *)
Definition print (line : string) : M unit :=
  fun w => (Ok tt, World (stdout w ++ [line]) (invocations w) (clock w)).

(** [datetime.now().isoformat()] *)
Definition now_isoformat : M string := fun w => (Ok (clock w), w).

(** ** Values of the program *)

(** The values stored in the [emotion_analysis] dict. *)
Inductive value : Type :=
| VStr (s : string)
| VFloat (f : float).

(** One entry of the list a [transformers] pipeline returns. *)
Record prediction : Type := Prediction { label : string; score : float }.

(** A pipeline object: called on a text, it returns a list of predictions
    or raises. *)
Definition pipeline : Type := string -> result (list prediction).

Record CodeContext : Type := Context {
  comments : list string;
  functions : list string;
  variables : list string;
  todo_items : list string
}.

Record Feedback : Type := MkFeedback {
  emotional_insights : list string;
  code_suggestions : list string;
  motivational_notes : list string;
  technical_recommendations : list string
}.

Record CodeMetrics : Type := Metrics {
  comments_count : nat;
  functions_count : nat;
  todo_count : nat
}.

Record Report : Type := MkReport {
  developer : string;
  timestamp : string;
  emotion_analysis : gmap string value;
  code_metrics : CodeMetrics;
  feedback : Feedback
}.

(** The object [self]: the two pipelines loaded by [__init__]. *)
Record EmotionCodeReviewer : Type := Reviewer {
  emotion_classifier : pipeline;
  sentiment_analyzer : pipeline
}.

(** The subscript [[0]] on what a pipeline call gave: an empty list makes
    it raise [IndexError]. *)
Definition first_prediction (r : result (list prediction)) : result prediction :=
  match r with
  | Ok (x :: _) => Ok x
  | Ok [] => Raise "list index out of range"
  | Raise e => Raise e
  end.

(** [self.<pipeline>(text)[0]]; the call is recorded. *)
Definition invoke_first (m : model) (p : pipeline) (text : string)
    : M prediction :=
  fun w =>
    (first_prediction (p text),
     World (stdout w) (invocations w ++ [(m, text)]) (clock w)).

(** ** extract_code_context *)

Import Re.

(** [r'^[#/]+\s*'] *)
Definition marker_re : regex :=
  Cat Bol (Cat (Rep1 Char.ismarker) (Rep0 Char.isspace)).

(** [r'def\s+(\w+)'] *)
Definition func_re : regex :=
  Cat (Chr "d") (Cat (Chr "e") (Cat (Chr "f")
    (Cat (Rep1 Char.isspace) (Grp (Rep1 Char.isword))))).

(** [r'^(\w+)\s*='] *)
Definition var_re : regex :=
  Cat Bol (Cat (Grp (Rep1 Char.isword)) (Cat (Rep0 Char.isspace) (Chr "="))).

Definition empty_context : CodeContext := Context [] [] [] [].

(** The test of the first [if] of the loop, on the stripped line. *)
Definition is_comment (line : string) : bool :=
  Str.startswith "#" line || Str.startswith "//" line.

Definition is_todo (comment : string) : bool :=
  Str.contains "todo" (Str.lower comment)
  || Str.contains "fixme" (Str.lower comment).

(** The first [if] of the loop body: comments and TODO items. *)
Definition scan_comment (context : CodeContext) (line : string) : CodeContext :=
  if is_comment line then
    let comment := sub_empty marker_re line in
    Context (comments context ++ [comment]) (functions context)
      (variables context)
      (if is_todo comment then todo_items context ++ [comment]
       else todo_items context)
  else context.

(** The second [if]: function names. *)
Definition scan_function (context : CodeContext) (line : string) : CodeContext :=
  match search func_re line with
  | Some func_match =>
      Context (comments context) (functions context ++ [group func_match])
        (variables context) (todo_items context)
  | None => context
  end.

(** The third [if]: variable assignments. *)
Definition scan_variable (context : CodeContext) (line : string) : CodeContext :=
  match search var_re line with
  | Some var_match =>
      Context (comments context) (functions context)
        (variables context ++ [group var_match]) (todo_items context)
  | None => context
  end.

(** The body of [for line in lines]. *)
Definition process_line (context : CodeContext) (line : string) : CodeContext :=
  let line := Str.strip line in
  scan_variable (scan_function (scan_comment context line) line) line.

Definition extract_code_context (code_text : string) : CodeContext :=
  let lines := Str.split "010" code_text in
  fold_left process_line lines empty_context.

(** What one line adds, seen on an empty context. *)
Definition line_context (line : string) : CodeContext :=
  process_line empty_context line.

(** ** analyze_developer_emotion *)

Definition neutral_default : gmap string value :=
  {[ "emotion" := VStr "neutral";
     "sentiment" := VStr "neutral";
     "confidence" := VFloat 0.5%float ]}.

Definition analyze_developer_emotion (self : EmotionCodeReviewer)
    (text_elements : list string) : M (gmap string value) :=
  match text_elements with
  | [] => ret neutral_default
  | _ =>
      let combined_text := Str.join " " text_elements in
      try_except
        (let* emotion_result :=
           invoke_first EmotionModel (emotion_classifier self) combined_text in
         let* sentiment_result :=
           invoke_first SentimentModel (sentiment_analyzer self) combined_text in
         ret ({[ "emotion" := VStr (Str.lower (label emotion_result));
                 "emotion_confidence" := VFloat (score emotion_result);
                 "sentiment" := VStr (Str.lower (label sentiment_result));
                 "sentiment_confidence" := VFloat (score sentiment_result) ]}
              : gmap string value))
        (fun e =>
           let* _ := print (" Analysis error: " +:+ e) in
           ret neutral_default)
  end.

(** ** generate_personalized_feedback *)

(** [v == s] for a dict value and a string literal. *)
Definition is_str (v : value) (s : string) : bool :=
  match v with
  | VStr t => String.eqb t s
  | VFloat _ => false
  end.

Definition add_emotional_insight (f : Feedback) (s : string) : Feedback :=
  MkFeedback (emotional_insights f ++ [s]) (code_suggestions f)
    (motivational_notes f) (technical_recommendations f).

Definition add_code_suggestion (f : Feedback) (s : string) : Feedback :=
  MkFeedback (emotional_insights f) (code_suggestions f ++ [s])
    (motivational_notes f) (technical_recommendations f).

Definition add_motivational_note (f : Feedback) (s : string) : Feedback :=
  MkFeedback (emotional_insights f) (code_suggestions f)
    (motivational_notes f ++ [s]) (technical_recommendations f).

Definition add_technical_recommendation (f : Feedback) (s : string) : Feedback :=
  MkFeedback (emotional_insights f) (code_suggestions f)
    (motivational_notes f) (technical_recommendations f ++ [s]).

Definition annoyed_insight : string :=
  " Sounds like your kinda annoyed in your comments. Just chill out - "
  +:+ "coding problems are good for you!".

Definition getting_there_note : string :=
  " Remeber: everyone good at this was bad once. Ur getting there!".

Definition good_vibe_insight : string :=
  " Really good vibe in your code! Your happy feelings comes through in comments.".

Definition hard_time_insight : string :=
  " Looks like your having a hard time coding. "
  +:+ "Take a break, or ask for help, don't be shy!".

Definition more_comments_suggestion : string :=
  " Maybe put more comments in to say what your doing - "
  +:+ "you (and your friends) will be happy later!".

Definition todo_suggestion (n : nat) : string :=
  " You got " +:+ pretty n +:+ " TODO stuff to do. "
  +:+ "How about doin' some of those first, then adding new things?".

Definition bad_words_recommendation : string :=
  " I see you saying bad things about your code. Try to make it better "
  +:+ "instead of being mean to yourself!".

Definition longer_names_recommendation (names : list string) : string :=
  " Try to use longer names for variables like: " +:+ Str.join ", " names.

(** [[v for v in variables if len(v) <= 2]] *)
Definition short_vars_of (vars : list string) : list string :=
  filter (fun v => String.length v <= 2) vars.

(** The [if]/[elif] chain on the emotion label. *)
Definition feel_rules (emotion : value) (feedback : Feedback) : Feedback :=
  if is_str emotion "anger" || is_str emotion "frustration" then
    add_motivational_note
      (add_emotional_insight feedback annoyed_insight) getting_there_note
  else if is_str emotion "joy" then
    add_emotional_insight feedback good_vibe_insight
  else if is_str emotion "sadness" then
    add_emotional_insight feedback hard_time_insight
  else feedback.

Definition comment_rule (code_context : CodeContext) (feedback : Feedback)
    : Feedback :=
  if (length (comments code_context) =? 0)%nat
  then add_code_suggestion feedback more_comments_suggestion
  else feedback.

Definition todo_rule (code_context : CodeContext) (feedback : Feedback)
    : Feedback :=
  if (3 <? length (todo_items code_context))%nat
  then add_code_suggestion feedback
         (todo_suggestion (length (todo_items code_context)))
  else feedback.

Definition bad_words_rule (code_context : CodeContext) (feedback : Feedback)
    : Feedback :=
  if existsb
       (fun word =>
          Str.contains word (Str.lower (Str.join " " (comments code_context))))
       ["hack"; "dirty"; "terrible"; "broken"]
  then add_technical_recommendation feedback bad_words_recommendation
  else feedback.

Definition names_rule (code_context : CodeContext) (feedback : Feedback)
    : Feedback :=
  match variables code_context with
  | [] => feedback
  | _ =>
      let short_vars := short_vars_of (variables code_context) in
      if (2 <? length short_vars)%nat
      then add_technical_recommendation feedback
             (longer_names_recommendation (take 3 short_vars))
      else feedback
  end.

Definition generate_personalized_feedback (code_context : CodeContext)
    (emotion_analysis : gmap string value) (commit_msg : string) : Feedback :=
  let feedback := MkFeedback [] [] [] [] in
  let emotion := default (VStr "neutral") (emotion_analysis !! "emotion") in
  let sentiment := default (VStr "neutral") (emotion_analysis !! "sentiment") in
  let feedback := feel_rules emotion feedback in
  let feedback := comment_rule code_context feedback in
  let feedback := todo_rule code_context feedback in
  let feedback := bad_words_rule code_context feedback in
  names_rule code_context feedback.

(** ** review_code *)

(** [context['comments'] + [commit_message] if commit_message
     else context['comments']] *)
Definition text_for_analysis (context : CodeContext) (commit_message : string)
    : list string :=
  if Str.nonempty commit_message
  then comments context ++ [commit_message]
  else comments context.

(** [f"\n Looking at code for {developer_name}..."] *)
Definition looking_line (developer_name : string) : string :=
  String "010" " Looking at code for " +:+ developer_name +:+ "...".

Definition review_code (self : EmotionCodeReviewer) (code_text : string)
    (commit_message : string) (developer_name : string) : M Report :=
  let* _ := print (looking_line developer_name) in
  let context := extract_code_context code_text in
  let* emotion_analysis :=
    analyze_developer_emotion self (text_for_analysis context commit_message) in
  let feedback :=
    generate_personalized_feedback context emotion_analysis commit_message in
  let* timestamp := now_isoformat in
  ret (MkReport developer_name timestamp emotion_analysis
         (Metrics (length (comments context)) (length (functions context))
            (length (todo_items context)))
         feedback).

(** The sample of [--demo]. *)
Definition nl : string := String "010" "".

Definition sample_code : string :=
  nl
  +:+ "# This is a terrible hack but I can't figure out the right way" +:+ nl
  +:+ "def calculate_stuff(x, y):" +:+ nl
  +:+ "    # TODO: fix this mess later" +:+ nl
  +:+ "    # I hate this function, it's so confusing" +:+ nl
  +:+ "    result = x * y + 42  # why 42? I have no idea anymore" +:+ nl
  +:+ "    return result" +:+ nl
  +:+ nl
  +:+ "# Another TODO: refactor everything" +:+ nl
  +:+ "def main():" +:+ nl
  +:+ "    # This probably won't work but whatever" +:+ nl
  +:+ "    a = 5" +:+ nl
  +:+ "    b = 10" +:+ nl
  +:+ "    print(calculate_stuff(a, b))  # fingers crossed" +:+ nl.

Definition dquote : string := String "034" "".

(** The try block fails on [text] with the exception text [e]: the emotion
    pipeline call (or its subscript) raises, or it returns and the
    sentiment pipeline call (or its subscript) raises. *)
Definition model_fails (self : EmotionCodeReviewer) (text e : string) : Prop :=
  first_prediction (emotion_classifier self text) = Raise e
  \/ (exists p, first_prediction (emotion_classifier self text) = Ok p
       /\ first_prediction (sentiment_analyzer self text) = Raise e).

(** A test double: models that answer [joy] and [POSITIVE] on every text. *)
Definition joyful : EmotionCodeReviewer :=
  Reviewer (fun _ => Ok [Prediction "joy" 0.875%float])
           (fun _ => Ok [Prediction "POSITIVE" 0.875%float]).

(** A test double whose emotion model is out of reach. *)
Definition offline : EmotionCodeReviewer :=
  Reviewer (fun _ => Raise "model unavailable")
           (fun _ => Ok [Prediction "POSITIVE" 0.875%float]).

Definition fresh_world : world := World [] [] "2025-01-01T00:00:00".

(** The model invocations of one run of the classifier step on
    [text_elements]: none on the empty list; otherwise the emotion model on
    the joined text, then the sentiment model unless the first call
    failed. *)
Definition model_calls (self : EmotionCodeReviewer) (text_elements : list string)
    : list (model * string) :=
  match text_elements with
  | [] => []
  | _ =>
      let text := Str.join " " text_elements in
      (EmotionModel, text)
      :: match first_prediction (emotion_classifier self text) with
         | Ok _ => [(SentimentModel, text)]
         | Raise _ => []
         end
  end.

(** The words of the rule against self-deprecating comments. *)
Definition bad_words : list string := ["hack"; "dirty"; "terrible"; "broken"].

(** A word without a space. *)
Definition spaceless (word : string) : bool :=
  Str.all (fun c => negb (Ascii.eqb c " ")) word.

(** ** print_report *)

(** [raise e] *)
Definition raise {A} (e : string) : M A := fun w => (Raise e, w).

(** [for x in l: body(x)] *)
Fixpoint for_each {A} (l : list A) (body : A -> M unit) : M unit :=
  match l with
  | [] => ret tt
  | x :: l' => let* _ := body x in for_each l' body
  end.

(** [s * n] *)
Fixpoint str_repeat (s : string) (n : nat) : string :=
  match n with
  | 0 => ""
  | S n' => s +:+ str_repeat s n'
  end.

(** [v.title()] on a value of the [emotion_analysis] dict: a method of
    [str] only.  The title-casing of [str] itself leaves the range U+0000 ..
    U+00FF on some characters, so [str.title] is a parameter. *)
Definition value_title (title : string -> string) (v : value) : M string :=
  match v with
  | VStr s => ret (title s)
  | VFloat _ => raise "'float' object has no attribute 'title'"
  end.

(** One of the four conditional sections:
    [if entries: print(header); for e in entries: print(f"   - {e}")]. *)
Definition print_section (header : string) (entries : list string) : M unit :=
  match entries with
  | [] => ret tt
  | _ =>
      let* _ := print header in
      for_each entries (fun entry => print ("   - " +:+ entry))
  end.

Definition rule_line : string := str_repeat "=" 60.

Definition print_report (title : string -> string) (report : Report) : M unit :=
  let* _ := print (nl +:+ rule_line) in
  let* _ := print " EMOTION-DRIVEN CODE REVIEW REPORT" in
  let* _ := print (" Developer: " +:+ developer report) in
  let* _ := print (" Time: " +:+ timestamp report) in
  let* _ := print rule_line in
  let emotion := emotion_analysis report in
  let* _ := print (nl +:+ " EMOTIONAL STATE ANALYSIS:") in
  let* primary :=
    value_title title (default (VStr "N/A") (emotion !! "emotion")) in
  let* _ := print ("   Primary Emotion: " +:+ primary) in
  let* overall :=
    value_title title (default (VStr "N/A") (emotion !! "sentiment")) in
  let* _ := print ("   Overall Sentiment: " +:+ overall) in
  let metrics := code_metrics report in
  let* _ := print (nl +:+ " CODE METRICS:") in
  let* _ := print ("   Comments: " +:+ pretty (comments_count metrics)) in
  let* _ := print ("   Functions: " +:+ pretty (functions_count metrics)) in
  let* _ := print ("   TODO Items: " +:+ pretty (todo_count metrics)) in
  let feedback := feedback report in
  let* _ := print_section (nl +:+ " EMOTIONAL INSIGHTS:")
              (emotional_insights feedback) in
  let* _ := print_section (nl +:+ " CODE SUGGESTIONS:")
              (code_suggestions feedback) in
  let* _ := print_section (nl +:+ " TECHNICAL RECOMMENDATIONS:")
              (technical_recommendations feedback) in
  let* _ := print_section (nl +:+ " MOTIVATIONAL NOTES:")
              (motivational_notes feedback) in
  print (nl +:+ rule_line).

(** The lines of one conditional section: none for an empty list, else
    the header and one dashed line per entry. *)
Definition section_lines (header : string) (entries : list string)
    : list string :=
  match entries with
  | [] => []
  | _ => header :: map (fun entry => "   - " +:+ entry) entries
  end.

(** The lines of a report whose emotion and sentiment labels print as
    [primary] and [overall]. *)
Definition report_lines (primary overall : string) (report : Report)
    : list string :=
  [ nl +:+ rule_line;
    " EMOTION-DRIVEN CODE REVIEW REPORT";
    " Developer: " +:+ developer report;
    " Time: " +:+ timestamp report;
    rule_line;
    nl +:+ " EMOTIONAL STATE ANALYSIS:";
    "   Primary Emotion: " +:+ primary;
    "   Overall Sentiment: " +:+ overall;
    nl +:+ " CODE METRICS:";
    "   Comments: " +:+ pretty (comments_count (code_metrics report));
    "   Functions: " +:+ pretty (functions_count (code_metrics report));
    "   TODO Items: " +:+ pretty (todo_count (code_metrics report)) ]
  ++ section_lines (nl +:+ " EMOTIONAL INSIGHTS:")
       (emotional_insights (feedback report))
  ++ section_lines (nl +:+ " CODE SUGGESTIONS:")
       (code_suggestions (feedback report))
  ++ section_lines (nl +:+ " TECHNICAL RECOMMENDATIONS:")
       (technical_recommendations (feedback report))
  ++ section_lines (nl +:+ " MOTIVATIONAL NOTES:")
       (motivational_notes (feedback report))
  ++ [ nl +:+ rule_line ].

(** The world after some more lines were printed. *)
Definition printed (w : world) (lines : list string) : world :=
  World (stdout w ++ lines) (invocations w) (clock w).

(** ** main *)

(** The namespace [parser.parse_args()] returns. *)
Record Namespace : Type := Args {
  file : option string;     (* --file, -f; None when absent *)
  commit : string;          (* --commit, -c; default "" *)
  name : string;            (* --name, -n; default "Developer" *)
  demo : bool               (* --demo *)
}.

(** What [open(path, 'r')] followed by [f.read()] gives. *)
Inductive read_outcome : Type :=
| Content (code : string)
| NotFound                     (* FileNotFoundError *)
| ReadError (e : string).      (* any other exception *)

(** [EmotionCodeReviewer()]: [loaded] is what loading the two pipelines
    gives, the object or an exception. *)
Definition init (loaded : result EmotionCodeReviewer) : M EmotionCodeReviewer :=
  let* _ := print " Loading emotion analysis models..." in
  let* self := (fun w => (loaded, w)) in
  let* _ := print " Models loaded good!" in
  ret self.

Definition demo_commit_msg : string :=
  "ughhh fixed the bug but created 3 more problems... why is coding so hard today".

(** [if args.file]: given and not empty. *)
Definition file_given (args : Namespace) : option string :=
  match file args with
  | Some path => if Str.nonempty path then Some path else None
  | None => None
  end.

(** [main()], from the parsed arguments on.  [fs] is the file system as
    [open] and [read] see it.  Inside the [try], after the file is read,
    only [review_code] and [print_report] run, and no [FileNotFoundError]
    comes out of them, so what they raise goes to the second handler. *)
Definition main (loaded : result EmotionCodeReviewer)
    (fs : string -> read_outcome) (title : string -> string)
    (args : Namespace) : M unit :=
  let* reviewer := init loaded in
  if demo args then
    let* _ := print " Running demo with emotionally-charged sample code..." in
    let* report :=
      review_code reviewer sample_code demo_commit_msg "Demo Developer" in
    print_report title report
  else
    match file_given args with
    | Some path =>
        match fs path with
        | Content code =>
            try_except
              (let* report :=
                 review_code reviewer code (commit args) (name args) in
               print_report title report)
              (fun e => print (" Error reading file: " +:+ e))
        | NotFound => print (" File " +:+ path +:+ " not found!")
        | ReadError e => print (" Error reading file: " +:+ e)
        end
    | None =>
        let* _ := print " Please provide --file or use --demo" in
        let* _ := print "Example: python emotion_code_reviewer.py --demo" in
        print "         python emotion_code_reviewer.py --file my_script.py --commit 'Added new feature'"
    end.

(** The two lines of [__init__], and the usage guidance of [main]. *)
Definition loading_lines : list string :=
  [" Loading emotion analysis models..."; " Models loaded good!"].

Definition usage_lines : list string :=
  [" Please provide --file or use --demo";
   "Example: python emotion_code_reviewer.py --demo";
   "         python emotion_code_reviewer.py --file my_script.py --commit 'Added new feature'"].

(** * Properties *)

(** ** The embedding on the program's own sample and on single lines *)

Example demo_context :
  extract_code_context sample_code
  = Context
      ["This is a terrible hack but I can't figure out the right way";
       "TODO: fix this mess later";
       "I hate this function, it's so confusing";
       "Another TODO: refactor everything";
       "This probably won't work but whatever"]
      ["calculate_stuff"; "main"]
      ["result"; "a"; "b"]
      ["TODO: fix this mess later"; "Another TODO: refactor everything"].
Proof. reflexivity. Qed.

Example todo_line :
  extract_code_context "# TODO: fix this"
  = Context ["TODO: fix this"] [] [] ["TODO: fix this"].
Proof. reflexivity. Qed.

Example assignment_lines :
  variables (extract_code_context ("x = 5" +:+ nl +:+ "result = x * y + 42"))
  = ["x"; "result"].
Proof. reflexivity. Qed.

Example empty_text : extract_code_context "" = empty_context.
Proof. reflexivity. Qed.

Example four_todos :
  code_suggestions
    (generate_personalized_feedback
       (Context ["todo a"; "todo b"; "todo c"; "todo d"] [] []
          ["todo a"; "todo b"; "todo c"; "todo d"])
       neutral_default "")
  = [" You got 4 TODO stuff to do. How about doin' some of those first, then adding new things?"].
Proof. reflexivity. Qed.

Example short_names :
  technical_recommendations
    (generate_personalized_feedback
       (Context ["ok"] [] ["a"; "b"; "result"; "x"] []) neutral_default "")
  = [" Try to use longer names for variables like: a, b, x"].
Proof. reflexivity. Qed.

(** ** Characters *)

Ltac by_char c := destruct c as [[] [] [] [] [] [] [] []]; vm_compute; congruence.

Lemma isword_not_isspace c : Char.isword c = true -> Char.isspace c = false.
Proof. by_char c. Qed.

Lemma isword_not_equals c : Char.isword c = true -> Ascii.eqb "=" c = false.
Proof. by_char c. Qed.

Lemma isspace_not_equals c : Char.isspace c = true -> Ascii.eqb "=" c = false.
Proof. by_char c. Qed.

Lemma ismarker_not_isword c : Char.ismarker c = true -> Char.isword c = false.
Proof. by_char c. Qed.

Lemma ismarker_not_isspace c : Char.ismarker c = true -> Char.isspace c = false.
Proof. by_char c. Qed.

(** ** Strings *)

Lemma str_app_nil_l (s : string) : "" +:+ s = s.
Proof. reflexivity. Qed.

Lemma str_app_cons c (s t : string) : String c s +:+ t = String c (s +:+ t).
Proof. reflexivity. Qed.

Lemma str_app_nil_r (s : string) : s +:+ "" = s.
Proof. induction s as [|c s IH]; [done|]. by rewrite str_app_cons, IH. Qed.

Lemma str_app_assoc (s t u : string) : (s +:+ t) +:+ u = s +:+ (t +:+ u).
Proof. induction s as [|c s IH]; [done|]. by rewrite !str_app_cons, IH. Qed.

Lemma str_length_app (s t : string) :
  String.length (s +:+ t) = String.length s + String.length t.
Proof. induction s as [|c s IH]; [done|]. rewrite str_app_cons. simpl. by rewrite IH. Qed.

Lemma str_take_app (s t : string) : Str.take (String.length s) (s +:+ t) = s.
Proof. induction s as [|c s IH]; [by destruct t|]. rewrite str_app_cons. simpl. by rewrite IH. Qed.

(** Group 1, cut out of the text by the lengths before and after it. *)
Lemma take_consumed (s t : string) :
  Str.take (String.length (s +:+ t) - String.length t) (s +:+ t) = s.
Proof.
  replace (String.length (s +:+ t) - String.length t)
    with (String.length s) by (rewrite str_length_app; lia).
  apply str_take_app.
Qed.

Lemma str_all_app p (s t : string) :
  Str.all p (s +:+ t) = Str.all p s && Str.all p t.
Proof.
  induction s as [|c s IH]; [done|]. rewrite str_app_cons. simpl.
  by rewrite IH, andb_assoc.
Qed.

Lemma lstrip_spaces (ws s : string) :
  Str.all Char.isspace ws = true -> Str.lstrip (ws +:+ s) = Str.lstrip s.
Proof.
  induction ws as [|c ws IH]; [done|]. rewrite str_app_cons. simpl.
  intros [Hc Hws]%andb_true_iff. rewrite Hc. auto.
Qed.

Lemma lstrip_keeps (pre : string) c (s : string) :
  Char.isspace c = false ->
  exists pre', Str.lstrip (pre +:+ String c s) = pre' +:+ String c s.
Proof.
  intros Hc. induction pre as [|a pre [pre' IH]].
  - exists "". simpl. rewrite str_app_nil_l. simpl. by rewrite Hc.
  - rewrite str_app_cons. simpl. destruct (Char.isspace a).
    + eauto.
    + exists (String a pre). by rewrite str_app_cons.
Qed.

Lemma rstrip_spaces (ws : string) :
  Str.all Char.isspace ws = true -> Str.rstrip ws = "".
Proof.
  induction ws as [|c ws IH]; [done|]. simpl.
  intros [Hc Hws]%andb_true_iff. by rewrite IH, Hc.
Qed.

Lemma rstrip_app (a b : string) :
  Str.rstrip (a +:+ b) =
  match Str.rstrip b with
  | "" => Str.rstrip a
  | r => a +:+ r
  end.
Proof.
  induction a as [|c a IH].
  - rewrite str_app_nil_l. by destruct (Str.rstrip b).
  - rewrite str_app_cons. simpl. rewrite IH.
    destruct (Str.rstrip b) as [|d r]; [done|].
    destruct a; by rewrite ?str_app_cons.
Qed.

Lemma rstrip_keeps c (s : string) :
  Char.isspace c = false -> exists s', Str.rstrip (String c s) = String c s'.
Proof.
  intros Hc. simpl. destruct (Str.rstrip s); [rewrite Hc|]; eauto.
Qed.

Lemma strip_spaces (ws s : string) :
  Str.all Char.isspace ws = true -> Str.strip (ws +:+ s) = Str.strip s.
Proof.
  intros Hws. unfold Str.strip. rewrite rstrip_app.
  destruct (Str.rstrip s) as [|c r] eqn:E.
  - by rewrite rstrip_spaces.
  - by rewrite lstrip_spaces.
Qed.

Lemma span_spec p (s : string) :
  s = Str.take_while p s +:+ Str.drop_while p s
  /\ Str.all p (Str.take_while p s) = true
  /\ Str.stops p (Str.drop_while p s) = true.
Proof.
  induction s as [|c s (IH1 & IH2 & IH3)]; [done|]. simpl.
  destruct (p c) eqn:Hc.
  - rewrite str_app_cons, <- IH1. simpl. by rewrite Hc, IH2.
  - rewrite str_app_nil_l. simpl. by rewrite Hc.
Qed.

(** ** The matcher *)

Section RepFacts.
Context {R : Type}.
Implicit Types (k : bool -> string -> option R) (x : R).

(** A greedy repetition takes the whole run when the continuation accepts
    what follows it. *)
Lemma rep_run cls b (run rest : string) k x :
  Str.all cls run = true -> Str.stops cls rest = true ->
  k (after_run run b) rest = Some x ->
  rep cls b (run +:+ rest) k = Some x.
Proof.
  revert b. induction run as [|c run IH]; intros b Hrun Hrest Hk.
  - rewrite str_app_nil_l. destruct rest as [|c rest]; [done|].
    simpl in *. by destruct (cls c).
  - apply andb_true_iff in Hrun as [Hc Hrun].
    rewrite str_app_cons. simpl. rewrite Hc.
    rewrite (IH false); [done..|]. by destruct run.
Qed.

(** Whatever a repetition returns, the continuation returned it after a
    run of the class. *)
Lemma rep_inv cls b (s : string) k x :
  rep cls b s k = Some x ->
  exists run rest, s = run +:+ rest /\ Str.all cls run = true
    /\ k (after_run run b) rest = Some x.
Proof.
  revert b. induction s as [|c s IH]; intros b H; simpl in H.
  - by exists "", "".
  - destruct (cls c) eqn:Hc.
    + destruct (rep cls false s k) as [y|] eqn:E.
      * injection H as ->.
        destruct (IH _ E) as (run & rest & -> & Hrun & Hk).
        exists (String c run), rest. simpl. rewrite Hc, Hrun.
        split_and!; [done..|]. by destruct run.
      * by exists "", (String c s).
    + by exists "", (String c s).
Qed.

(** A continuation that fails everywhere makes the repetition fail. *)
Lemma rep_none cls b (s : string) k :
  (forall b' s', k b' s' = None) -> rep cls b s k = None.
Proof.
  intros Hk. revert b. induction s as [|c s IH]; intros b; simpl; [done|].
  destruct (cls c); [|done]. by rewrite IH.
Qed.
End RepFacts.

(** ** Searching *)

#[local] Arguments Ascii.eqb : simpl never.

Lemma search_from_inv r b (s : string) st :
  search_from r b s = Some st ->
  exists pre s' b', s = pre +:+ s' /\ match_here r b' s' = Some st.
Proof.
  revert b. induction s as [|c s IH]; intros b H; simpl in H.
  - destruct (match_here r b "") eqn:E; [|done].
    exists "", "", b. by injection H as ->.
  - destruct (match_here r b (String c s)) eqn:E.
    + exists "", (String c s), b. by injection H as ->.
    + destruct (IH _ H) as (pre & s' & b' & -> & Hm).
      by exists (String c pre), s', b'.
Qed.

Lemma search_from_complete r b (pre s : string) :
  (forall b', is_Some (match_here r b' s)) ->
  is_Some (search_from r b (pre +:+ s)).
Proof.
  intros Hs. revert b. induction pre as [|c pre IH]; intros b.
  - rewrite str_app_nil_l. destruct (Hs b) as [st Hst].
    destruct s; simpl; by rewrite Hst.
  - rewrite str_app_cons. simpl.
    destruct (match_here r b (String c (pre +:+ s))); [done|]. apply IH.
Qed.

(** A pattern that begins with [^] matches at the start of the subject or
    nowhere. *)
Lemma search_from_bol r (s : string) : search_from (Cat Bol r) false s = None.
Proof. induction s as [|c s IH]; [done|]. simpl. apply IH. Qed.

Lemma search_bol r (s : string) :
  search (Cat Bol r) s = match_here (Cat Bol r) true s.
Proof.
  unfold search. destruct s as [|c s]; simpl.
  - by destruct (match_here (Cat Bol r) true "").
  - destruct (match_here (Cat Bol r) true (String c s)); [done|].
    apply search_from_bol.
Qed.

(** ** The three patterns *)

(** [def\s+(\w+)] matches exactly the texts [def], a non-empty run of
    whitespace, a non-empty run of word characters, which is group 1. *)
Lemma func_re_inv b (s : string) st :
  match_here func_re b s = Some st ->
  exists ws id,
    s = "def" +:+ ws +:+ id +:+ rest st
    /\ ws <> "" /\ Str.all Char.isspace ws = true
    /\ id <> "" /\ Str.all Char.isword id = true
    /\ group1 st = Some id.
Proof.
  unfold match_here, func_re. simpl.
  destruct s as [|c1 [|c2 [|c3 [|w s]]]]; simpl; try done;
    try (repeat (destruct (Ascii.eqb _ _); try done); fail).
  destruct (Ascii.eqb_spec "d" c1) as [<-|]; [|done].
  destruct (Ascii.eqb_spec "e" c2) as [<-|]; [|done].
  destruct (Ascii.eqb_spec "f" c3) as [<-|]; [|done].
  destruct (Char.isspace w) eqn:Hw; [|done].
  intros (ws & r1 & -> & Hws & H)%rep_inv.
  destruct r1 as [|c r1]; simpl in H; [done|].
  destruct (Char.isword c) eqn:Hc; [|done].
  apply rep_inv in H as (id & r2 & -> & Hid & H). injection H as <-. simpl.
  exists (String w ws), (String c id).
  split_and!.
  - reflexivity.
  - done.
  - simpl. by rewrite Hw, Hws.
  - done.
  - simpl. by rewrite Hc, Hid.
  - f_equal. exact (take_consumed (String c id) r2).
Qed.

Lemma func_re_complete b (ws : string) c (tail : string) :
  ws <> "" -> Str.all Char.isspace ws = true -> Char.isword c = true ->
  is_Some (match_here func_re b ("def" +:+ ws +:+ String c tail)).
Proof.
  intros Hne Hws Hc. destruct ws as [|w ws]; [done|].
  apply andb_true_iff in Hws as [Hw Hws].
  unfold match_here, func_re. rewrite !str_app_cons, str_app_nil_l.
  simpl. rewrite Hw.
  destruct (span_spec Char.isword tail) as (Htail & Hrun & Hstop).
  revert Htail Hrun Hstop.
  generalize (Str.take_while Char.isword tail) (Str.drop_while Char.isword tail).
  intros run rest -> Hrun Hstop.
  eexists. apply rep_run; [done| |].
  - simpl. by rewrite (isword_not_isspace c).
  - simpl. rewrite Hc. by apply rep_run.
Qed.

(** [^(\w+)\s*=] on a text that begins with word characters, optional
    whitespace and [=]: group 1 is the run of word characters. *)
Lemma var_re_found (id ws tail : string) :
  id <> "" -> Str.all Char.isword id = true ->
  Str.all Char.isspace ws = true ->
  match_here var_re true (id +:+ ws +:+ String "=" tail)
  = Some (MState false tail (Some id)).
Proof.
  intros Hne Hid Hws. destruct id as [|c id]; [done|].
  apply andb_true_iff in Hid as [Hc Hid].
  unfold match_here, var_re. rewrite str_app_cons. simpl. rewrite Hc.
  apply rep_run; [done| |].
  - destruct ws as [|w ws]; [done|]. apply andb_true_iff in Hws as [Hw _].
    rewrite str_app_cons. simpl.
    destruct (Char.isword w) eqn:E; [|done].
    by rewrite (isword_not_isspace w) in Hw.
  - simpl. rewrite (rep_run _ _ ws (String "=" tail) _
      (MState false tail (Some (String c id)))); [done..| |].
    + done.
    + simpl. do 3 f_equal.
      exact (take_consumed (String c id) (ws +:+ String "=" tail)).
Qed.

(** [^(\w+)\s*=] finds nothing in a text that does not begin with a word
    character. *)
Lemma var_re_stops (s : string) :
  Str.stops Char.isword s = true -> search var_re s = None.
Proof.
  intros Hs. unfold var_re. rewrite search_bol. unfold match_here. simpl.
  destruct s as [|c s]; [done|]. simpl in *. by destruct (Char.isword c).
Qed.

(** [re.sub(r'^[#/]+\s*', '', s)] removes the leading run of [#] and [/]
    and the whitespace after it, and nothing else. *)
Lemma sub_from_bol fuel r (s : string) : sub_from fuel (Cat Bol r) false s = s.
Proof.
  revert s. induction fuel as [|fuel IH]; intros s; [done|]. simpl.
  destruct s as [|c s]; [done|]. by rewrite IH.
Qed.

Lemma rep_always {R} cls b (s : string) (k : bool -> string -> option R) :
  (forall b' s', is_Some (k b' s')) ->
  rep cls b s k
  = k (after_run (Str.take_while cls s) b) (Str.drop_while cls s).
Proof.
  intros Hk. destruct (span_spec cls s) as (Hs & Hrun & Hstop).
  destruct (Hk (after_run (Str.take_while cls s) b) (Str.drop_while cls s))
    as [x Hx].
  rewrite Hx. rewrite Hs at 1. by apply rep_run.
Qed.

Lemma length_drop_while p (s : string) :
  String.length (Str.drop_while p s) <= String.length s.
Proof. induction s as [|c s IH]; simpl; [lia|]. destruct (p c); simpl; lia. Qed.

Lemma sub_marker_re (s : string) :
  sub_empty marker_re s =
  if Str.stops Char.ismarker s then s
  else Str.drop_while Char.isspace (Str.drop_while Char.ismarker s).
Proof.
  unfold sub_empty, marker_re. destruct s as [|c s]; [done|].
  cbn [Str.stops String.length]. remember (S (String.length s)) as n.
  cbn [sub_from]. unfold match_here. cbn [mtch at_bol rest group1].
  destruct (Char.ismarker c) eqn:Hc; cbn [negb Str.drop_while].
  - rewrite Hc. rewrite rep_always.
    2:{ intros b' s'. cbn. rewrite rep_always; [done|]. by eexists. }
    cbn [mtch at_bol rest group1]. rewrite rep_always by by eexists.
    cbn [rest].
    pose proof (length_drop_while Char.isspace (Str.drop_while Char.ismarker s)).
    pose proof (length_drop_while Char.ismarker s).
    case_match; [|apply Nat.ltb_ge in H1; simpl in H1; lia].
    apply sub_from_bol.
  - by rewrite sub_from_bol.
Qed.

(** ** extract_code_context, line by line *)

Lemma scan_function_fields context line :
  comments (scan_function context line) = comments context
  /\ variables (scan_function context line) = variables context
  /\ todo_items (scan_function context line) = todo_items context.
Proof. unfold scan_function. by destruct (search func_re line). Qed.

Lemma scan_variable_fields context line :
  comments (scan_variable context line) = comments context
  /\ functions (scan_variable context line) = functions context
  /\ todo_items (scan_variable context line) = todo_items context.
Proof. unfold scan_variable. by destruct (search var_re line). Qed.

Lemma scan_comment_fields context line :
  functions (scan_comment context line) = functions context
  /\ variables (scan_comment context line) = variables context.
Proof. unfold scan_comment. by destruct (is_comment line). Qed.

(** A line adds to the four sequences what it adds to empty ones. *)
Lemma process_line_fields context line :
  comments (process_line context line)
    = comments context ++ comments (line_context line)
  /\ functions (process_line context line)
    = functions context ++ functions (line_context line)
  /\ variables (process_line context line)
    = variables context ++ variables (line_context line)
  /\ todo_items (process_line context line)
    = todo_items context ++ todo_items (line_context line).
Proof.
  unfold line_context, process_line, scan_variable, scan_function, scan_comment.
  destruct (search var_re _), (search func_re _), (is_comment _);
    simpl; rewrite ?app_nil_r; try done;
    destruct (is_todo _); simpl; by rewrite ?app_nil_r.
Qed.

Lemma fold_process_line_fields lines context :
  let context' := fold_left process_line lines context in
  comments context'
    = comments context ++ flat_map (fun l => comments (line_context l)) lines
  /\ functions context'
    = functions context ++ flat_map (fun l => functions (line_context l)) lines
  /\ variables context'
    = variables context ++ flat_map (fun l => variables (line_context l)) lines
  /\ todo_items context'
    = todo_items context ++ flat_map (fun l => todo_items (line_context l)) lines.
Proof.
  revert context. induction lines as [|l lines IH]; intros context; simpl.
  - by rewrite !app_nil_r.
  - destruct (IH (process_line context l)) as (-> & -> & -> & ->).
    destruct (process_line_fields context l) as (-> & -> & -> & ->).
    by rewrite <- !app_assoc.
Qed.

(** A comment line begins with a character that is not a word character. *)
Lemma is_comment_stops line :
  is_comment line = true -> Str.stops Char.isword line = true.
Proof.
  unfold is_comment. destruct line as [|c line]; [done|]. simpl.
  intros H. rewrite (ismarker_not_isword c); [done|].
  unfold Char.ismarker.
  apply orb_true_iff in H as [H|H].
  - rewrite andb_true_r in H. rewrite Ascii.eqb_sym, H. done.
  - destruct line as [|d line]; [by rewrite andb_false_r in H|].
    apply andb_true_iff in H as [H _]. rewrite (Ascii.eqb_sym c "/"), H.
    apply orb_true_r.
Qed.

(** The variable pattern on a stripped line that begins with word
    characters, optional whitespace and [=]. *)
Lemma search_var_found (id ws tail : string) :
  id <> "" -> Str.all Char.isword id = true ->
  Str.all Char.isspace ws = true ->
  search var_re (id +:+ ws +:+ String "=" tail)
  = Some (MState false tail (Some id)).
Proof.
  intros. unfold var_re at 1. rewrite search_bol. by apply var_re_found.
Qed.

Lemma stripped_assignment context line (id ws tail : string) :
  Str.strip line = id +:+ ws +:+ String "=" tail ->
  id <> "" -> Str.all Char.isword id = true ->
  Str.all Char.isspace ws = true ->
  variables (process_line context line) = variables context ++ [id].
Proof.
  intros Hline Hne Hid Hws. unfold process_line, scan_variable.
  rewrite Hline, search_var_found by done. simpl.
  by destruct (scan_function_fields
    (scan_comment context (id +:+ ws +:+ String "=" tail))
    (id +:+ ws +:+ String "=" tail)) as (_ & -> & _),
    (scan_comment_fields context (id +:+ ws +:+ String "=" tail)) as (_ & ->).
Qed.

(** ** Comment lines and the other two checks (C1) *)

(** C1, as stated, fails: the line [# def foo] is a comment line, and the
    function check, which runs on every line, adds [foo] to the functions
    sequence. *)
Lemma comment_line_not_exclusive :
  is_comment (Str.strip "# def foo") = true
  /\ extract_code_context "# def foo" = Context ["def foo"] ["foo"] [] []
  /\ ~ (forall context line,
          is_comment (Str.strip line) = true ->
          functions (process_line context line) = functions context
          /\ variables (process_line context line) = variables context).
Proof.
  split_and!; [reflexivity..|].
  intros H. destruct (H empty_context "# def foo") as [Hf _]; [done|].
  vm_compute in Hf. discriminate.
Qed.

(** C1, amended: a line that matched as a comment adds its body to the
    comments sequence and nothing to the variables sequence; the function
    check is not exclusive of the comment check, and the line adds to the
    functions sequence the identifier the function pattern finds in it, if
    any. *)
Theorem comment_line_checks context line :
  is_comment (Str.strip line) = true ->
  comments (process_line context line)
    = comments context ++ [sub_empty marker_re (Str.strip line)]
  /\ variables (process_line context line) = variables context
  /\ functions (process_line context line)
     = functions context
       ++ match search func_re (Str.strip line) with
          | Some func_match => [group func_match]
          | None => []
          end.
Proof.
  intros Hc. unfold process_line, scan_variable.
  rewrite (var_re_stops (Str.strip line)) by by apply is_comment_stops.
  unfold scan_function, scan_comment. rewrite Hc.
  destruct (search func_re (Str.strip line)); simpl; by rewrite ?app_nil_r.
Qed.

Lemma comment_line_checks_witness :
  comments (process_line empty_context "  # def foo")
    = comments empty_context ++ [sub_empty marker_re (Str.strip "  # def foo")]
  /\ variables (process_line empty_context "  # def foo")
     = variables empty_context
  /\ functions (process_line empty_context "  # def foo")
     = functions empty_context
       ++ match search func_re (Str.strip "  # def foo") with
          | Some func_match => [group func_match]
          | None => []
          end.
Proof. apply (comment_line_checks empty_context "  # def foo"). reflexivity. Defined.

(** ** Indented assignments (C3) *)

(** C3, as stated, fails: the line is stripped before the variable pattern
    is tried, so the indented line [    a = 5] adds [a]. *)
Lemma indented_assignment_detected :
  variables (extract_code_context "    a = 5") = ["a"]
  /\ ~ (forall context ws line,
          ws <> "" -> Str.all Char.isspace ws = true ->
          variables (process_line context (ws +:+ line)) = variables context).
Proof.
  split; [reflexivity|].
  intros H. specialize (H empty_context "    " "a = 5").
  vm_compute in H. by specialize (H ltac:(discriminate) eq_refl).
Qed.

(** C3, amended: the variable pattern is anchored at the start of the
    stripped line, so indentation does not matter: an indented line adds to
    the variables sequence what the same line without its indentation adds,
    and [    a = 5] adds [a]. *)
Theorem indentation_ignored context (ws line : string) :
  Str.all Char.isspace ws = true ->
  process_line context (ws +:+ line) = process_line context line
  /\ variables (process_line context (ws +:+ "a = 5"))
     = variables context ++ ["a"].
Proof.
  intros Hws. unfold process_line. rewrite !strip_spaces by done.
  split; [done|].
  apply (stripped_assignment context "a = 5" "a" " " " 5"); done.
Qed.

Lemma indentation_ignored_witness :
  process_line empty_context ("    " +:+ "a = 5")
    = process_line empty_context "a = 5"
  /\ variables (process_line empty_context ("    " +:+ "a = 5"))
     = variables empty_context ++ ["a"].
Proof. apply (indentation_ignored empty_context "    " "a = 5"). reflexivity. Defined.

(** ** TODO items (C5) *)

Lemma line_todo_items line :
  todo_items (line_context line)
  = filter (fun c => is_todo c = true) (comments (line_context line)).
Proof.
  unfold line_context, process_line.
  destruct (scan_variable_fields
    (scan_function (scan_comment empty_context (Str.strip line)) (Str.strip line))
    (Str.strip line)) as (-> & _ & ->).
  destruct (scan_function_fields (scan_comment empty_context (Str.strip line))
    (Str.strip line)) as (-> & _ & ->).
  unfold scan_comment. destruct (is_comment _); [|done]. simpl.
  rewrite filter_cons, filter_nil. destruct (is_todo _) eqn:E.
  - by rewrite decide_True.
  - by rewrite decide_False.
Qed.

(** C5: the TODO items are the comments whose body contains [todo] or
    [fixme], case-insensitively, in the order of the comments; so they are
    a subsequence of the comments and no more numerous. *)
Theorem todo_items_are_comments code_text :
  let context := extract_code_context code_text in
  todo_items context = filter (fun c => is_todo c = true) (comments context)
  /\ todo_items context `sublist_of` comments context
  /\ length (todo_items context) <= length (comments context).
Proof.
  intros context.
  assert (Hf : todo_items context
               = filter (fun c => is_todo c = true) (comments context)).
  { subst context. unfold extract_code_context.
    destruct (fold_process_line_fields (Str.split "010" code_text)
                empty_context) as (-> & _ & _ & ->). simpl.
    induction (Str.split "010" code_text) as [|l ls IH]; [done|]. simpl.
    by rewrite filter_app, <- IH, line_todo_items. }
  rewrite Hf. split_and!; [done|apply sublist_filter|apply length_filter].
Qed.

(** ** analyze_developer_emotion *)

Lemma analyze_empty self w :
  analyze_developer_emotion self [] w = (Ok neutral_default, w).
Proof. reflexivity. Qed.

(** The classifier step returns a value on every input: nothing raised in
    the try block leaves it. *)
Lemma analyze_returns self text_elements w :
  exists emotion_analysis w',
    analyze_developer_emotion self text_elements w = (Ok emotion_analysis, w').
Proof.
  destruct text_elements as [|t ts]; [by eexists _, _|].
  unfold analyze_developer_emotion, try_except, bind, invoke_first, print, ret.
  simpl.
  destruct (first_prediction (emotion_classifier self _)); [|by eexists _, _].
  destruct (first_prediction (sentiment_analyzer self _)); by eexists _, _.
Qed.

Lemma review_code_unfold self code_text commit_message developer_name w
    emotion_analysis w' :
  analyze_developer_emotion self
    (text_for_analysis (extract_code_context code_text) commit_message)
    (World (stdout w ++ [looking_line developer_name]) (invocations w) (clock w))
  = (Ok emotion_analysis, w') ->
  review_code self code_text commit_message developer_name w
  = (Ok (MkReport developer_name (clock w') emotion_analysis
           (Metrics (length (comments (extract_code_context code_text)))
                    (length (functions (extract_code_context code_text)))
                    (length (todo_items (extract_code_context code_text))))
           (generate_personalized_feedback (extract_code_context code_text)
              emotion_analysis commit_message)),
     w').
Proof.
  intros H. unfold review_code, bind, print, now_isoformat, ret. simpl.
  by rewrite H.
Qed.

(** ** The empty combined text (C2) *)

(** C2, as stated, fails: the guard tests the list of text elements, not
    the joined text.  The one-line input [#] gives the comment list [[""]],
    whose join is the empty text, and both models are invoked on it. *)
Lemma empty_text_reaches_models :
  text_for_analysis (extract_code_context "#") "" = [""]
  /\ Str.join " " [""] = ""
  /\ snd (analyze_developer_emotion joyful [""] fresh_world)
     = World [] [(EmotionModel, ""); (SentimentModel, "")] (clock fresh_world)
  /\ ~ (forall self text_elements w,
          Str.join " " text_elements = "" ->
          analyze_developer_emotion self text_elements w
          = (Ok neutral_default, w)).
Proof.
  split_and!; [reflexivity..|].
  intros H. specialize (H joyful [""] fresh_world eq_refl).
  apply (f_equal snd), (f_equal invocations) in H. discriminate H.
Qed.

(** C2, amended: when the list of text elements is empty, the classifier
    step returns the neutral default and leaves the world as it was: no
    model is invoked.  That is the case in [review_code] when no comment was
    extracted and the commit message is empty. *)
Theorem no_text_no_model self code_text developer_name w :
  analyze_developer_emotion self [] w = (Ok neutral_default, w)
  /\ (comments (extract_code_context code_text) = [] ->
      exists report w',
        review_code self code_text "" developer_name w = (Ok report, w')
        /\ emotion_analysis report = neutral_default
        /\ invocations w' = invocations w).
Proof.
  split; [reflexivity|]. intros Hc. eexists _, _.
  erewrite review_code_unfold.
  2:{ unfold text_for_analysis. simpl. rewrite Hc. apply analyze_empty. }
  done.
Qed.

Lemma no_text_no_model_witness :
  analyze_developer_emotion joyful [] fresh_world
    = (Ok neutral_default, fresh_world)
  /\ exists report w',
       review_code joyful "x = 1" "" "Developer" fresh_world = (Ok report, w')
       /\ emotion_analysis report = neutral_default
       /\ invocations w' = invocations fresh_world.
Proof.
  destruct (no_text_no_model joyful "x = 1" "Developer" fresh_world) as [H1 H2].
  split; [exact H1|]. apply H2. reflexivity.
Defined.

(** ** Failure of the models (C4) *)

(** C4: when a model invocation raises in a run of the classifier step on
    a non-empty list, the exception is caught, the diagnostic is printed,
    the neutral default is returned, and a review built on this step
    returns its report. *)
Theorem model_failure_recovered self text_elements e w :
  text_elements <> [] ->
  model_fails self (Str.join " " text_elements) e ->
  exists w',
    analyze_developer_emotion self text_elements w = (Ok neutral_default, w')
    /\ stdout w' = stdout w ++ [" Analysis error: " +:+ e]
    /\ forall code_text commit_message developer_name w0,
         text_for_analysis (extract_code_context code_text) commit_message
           = text_elements ->
         exists report w1,
           review_code self code_text commit_message developer_name w0
             = (Ok report, w1)
           /\ emotion_analysis report = neutral_default.
Proof.
  intros Hne Hfail.
  assert (Hrun : forall w, exists w',
    analyze_developer_emotion self text_elements w = (Ok neutral_default, w')
    /\ stdout w' = stdout w ++ [" Analysis error: " +:+ e]).
  { intros w1. destruct text_elements as [|t ts]; [done|].
    unfold analyze_developer_emotion. cbv zeta.
    revert Hfail. generalize (Str.join " " (t :: ts)). intros text Hfail.
    unfold try_except, bind, invoke_first, print, ret.
    destruct Hfail as [->|(p & -> & ->)]; by eexists. }
  destruct (Hrun w) as (w' & Hw' & Hout). exists w'. split_and!; [done..|].
  intros code_text commit_message developer_name w0 Htexts.
  destruct (Hrun (World (stdout w0 ++ [looking_line developer_name])
                    (invocations w0) (clock w0))) as (w1 & Hw1 & _).
  eexists _, w1. erewrite review_code_unfold; [done|]. by rewrite Htexts.
Qed.

Lemma model_failure_recovered_witness :
  exists w',
    analyze_developer_emotion offline ["fix me"; "ugh"] fresh_world
      = (Ok neutral_default, w')
    /\ stdout w' = stdout fresh_world ++ [" Analysis error: " +:+ "model unavailable"]
    /\ forall code_text commit_message developer_name w0,
         text_for_analysis (extract_code_context code_text) commit_message
           = ["fix me"; "ugh"] ->
         exists report w1,
           review_code offline code_text commit_message developer_name w0
             = (Ok report, w1)
           /\ emotion_analysis report = neutral_default.
Proof.
  apply (model_failure_recovered offline ["fix me"; "ugh"] "model unavailable").
  - discriminate.
  - left. reflexivity.
Defined.

(** ** generate_personalized_feedback *)

Lemma is_str_eq v s : is_str v s = true <-> v = VStr s.
Proof.
  destruct v as [t|f]; simpl; [|done]. rewrite String.eqb_eq.
  split; congruence.
Qed.

Lemma is_str_neq v s : v <> VStr s -> is_str v s = false.
Proof.
  intros H. destruct (is_str v s) eqn:E; [|done]. by apply is_str_eq in E.
Qed.

(** The rules after the emotion chain add code suggestions and technical
    recommendations only. *)
Lemma later_rules_keep code_context feedback :
  let feedback' :=
    names_rule code_context
      (bad_words_rule code_context
         (todo_rule code_context (comment_rule code_context feedback))) in
  emotional_insights feedback' = emotional_insights feedback
  /\ motivational_notes feedback' = motivational_notes feedback.
Proof.
  unfold names_rule, bad_words_rule, todo_rule, comment_rule.
  repeat case_match; done.
Qed.

(** ** Emotional insights (C6) *)

(** C6: the emotion label selects the emotional insight exclusively:
    [anger] or [frustration] gives the sympathetic insight and the
    motivational note, [joy] the encouraging insight, [sadness] the
    supportive one, each alone, and any other label gives none. *)
Theorem emotional_insight_selection code_context
    (emotion_analysis : gmap string value) commit_msg :
  let emotion := default (VStr "neutral") (emotion_analysis !! "emotion") in
  let feedback :=
    generate_personalized_feedback code_context emotion_analysis commit_msg in
  (emotion = VStr "anger" \/ emotion = VStr "frustration" ->
   emotional_insights feedback = [annoyed_insight]
   /\ motivational_notes feedback = [getting_there_note])
  /\ (emotion = VStr "joy" ->
      emotional_insights feedback = [good_vibe_insight]
      /\ motivational_notes feedback = [])
  /\ (emotion = VStr "sadness" ->
      emotional_insights feedback = [hard_time_insight]
      /\ motivational_notes feedback = [])
  /\ (emotion <> VStr "anger" -> emotion <> VStr "frustration" ->
      emotion <> VStr "joy" -> emotion <> VStr "sadness" ->
      emotional_insights feedback = []
      /\ motivational_notes feedback = []).
Proof.
  intros emotion feedback. subst feedback.
  unfold generate_personalized_feedback. fold emotion. cbv zeta.
  destruct (later_rules_keep code_context
              (feel_rules emotion (MkFeedback [] [] [] []))) as [-> ->].
  unfold feel_rules. split_and!.
  - by intros [->| ->].
  - by intros ->.
  - by intros ->.
  - intros H1 H2 H3 H4. by rewrite !is_str_neq.
Qed.

Lemma emotional_insight_selection_witness :
  let feedback :=
    generate_personalized_feedback empty_context
      {[ "emotion" := VStr "frustration" ]} "" in
  emotional_insights feedback = [annoyed_insight]
  /\ motivational_notes feedback = [getting_there_note].
Proof.
  apply (emotional_insight_selection empty_context
           {[ "emotion" := VStr "frustration" ]} "").
  right. reflexivity.
Defined.

(** ** The review (C7) *)

Lemma analyze_invocations self text_elements w emotion_analysis w' :
  analyze_developer_emotion self text_elements w = (Ok emotion_analysis, w') ->
  invocations w' = invocations w ++ model_calls self text_elements.
Proof.
  destruct text_elements as [|t ts].
  - intros [= _ <-]. by rewrite app_nil_r.
  - unfold analyze_developer_emotion, model_calls. cbv zeta.
    generalize (Str.join " " (t :: ts)). intros text.
    unfold try_except, bind, invoke_first, print, ret.
    destruct (first_prediction (emotion_classifier self text)); simpl.
    + destruct (first_prediction (sentiment_analyzer self text)); simpl;
        intros [= _ <-]; simpl; by rewrite <- app_assoc.
    + by intros [= _ <-].
Qed.

(** C7: the list handed to the classifier step is the extracted comments
    followed by the commit message when that is non-empty, and the extracted
    comments alone when it is empty: the report carries the result of the
    step on that list, and the models were invoked as the step invokes them
    on that list; the metrics of the report are the three lengths. *)
Theorem review_code_input_and_metrics self code_text commit_message
    developer_name w :
  let context := extract_code_context code_text in
  let text_elements :=
    if decide (commit_message = "") then comments context
    else comments context ++ [commit_message] in
  exists emotion_analysis' w' report,
    analyze_developer_emotion self text_elements
      (World (stdout w ++ [looking_line developer_name]) (invocations w)
         (clock w))
    = (Ok emotion_analysis', w')
    /\ review_code self code_text commit_message developer_name w
       = (Ok report, w')
    /\ emotion_analysis report = emotion_analysis'
    /\ invocations w' = invocations w ++ model_calls self text_elements
    /\ comments_count (code_metrics report) = length (comments context)
    /\ functions_count (code_metrics report) = length (functions context)
    /\ todo_count (code_metrics report) = length (todo_items context).
Proof.
  intros context text_elements.
  assert (Ht : text_elements = text_for_analysis context commit_message).
  { subst text_elements. unfold text_for_analysis.
    destruct commit_message; by case_decide. }
  destruct (analyze_returns self text_elements
    (World (stdout w ++ [looking_line developer_name]) (invocations w)
       (clock w))) as (ea & w' & Hea).
  exists ea, w'. eexists. split; [exact Hea|].
  pose proof (analyze_invocations _ _ _ _ _ Hea) as Hinv.
  rewrite Ht in Hea. subst context. erewrite review_code_unfold by exact Hea.
  done.
Qed.

(** ** [def] anywhere in a line (C8) *)

Lemma strip_keeps_occurrence (pre : string) a (mid : string) c (tail : string) :
  Char.isspace a = false -> Char.isspace c = false ->
  exists pre' tail',
    Str.strip (pre +:+ String a mid +:+ String c tail)
    = pre' +:+ String a mid +:+ String c tail'.
Proof.
  intros Ha Hc. unfold Str.strip.
  destruct (rstrip_keeps c tail Hc) as [tail' Htail].
  replace (pre +:+ String a mid +:+ String c tail)
    with ((pre +:+ String a mid) +:+ String c tail)
    by (by rewrite str_app_assoc).
  rewrite rstrip_app, Htail, str_app_assoc.
  destruct (lstrip_keeps pre a (mid +:+ String c tail') Ha) as [pre' Hpre].
  exists pre', tail'. by rewrite str_app_cons, Hpre.
Qed.

Lemma found_function context line func_match :
  search func_re (Str.strip line) = Some func_match ->
  functions (process_line context line)
  = functions context ++ [group func_match].
Proof.
  intros H. unfold process_line.
  destruct (scan_variable_fields
    (scan_function (scan_comment context (Str.strip line)) (Str.strip line))
    (Str.strip line)) as (_ & -> & _).
  unfold scan_function. rewrite H. simpl.
  by destruct (scan_comment_fields context (Str.strip line)) as [-> _].
Qed.

(** C8: whenever [def], whitespace and a word character occur in a line,
    wherever that is, the line adds one identifier to the functions
    sequence; so do the comment line [# def foo] and the assignment of the
    string literal [def helper]. *)
Theorem def_anywhere_adds_function context (line pre ws : string) c
    (tail : string) :
  line = pre +:+ "def" +:+ ws +:+ String c tail ->
  ws <> "" -> Str.all Char.isspace ws = true -> Char.isword c = true ->
  (exists id,
     functions (process_line context line) = functions context ++ [id]
     /\ id <> "" /\ Str.all Char.isword id = true)
  /\ functions (extract_code_context "# def foo") = ["foo"]
  /\ functions (extract_code_context
                  ("s = " +:+ dquote +:+ "def helper" +:+ dquote))
     = ["helper"].
Proof.
  intros -> Hne Hws Hc. split; [|by split].
  destruct (strip_keeps_occurrence pre "d" ("ef" +:+ ws) c tail)
    as (pre' & tail' & Hstrip);
    [done|by apply isword_not_isspace|].
  assert (Hline : Str.strip (pre +:+ "def" +:+ ws +:+ String c tail)
                  = pre' +:+ "def" +:+ ws +:+ String c tail').
  { exact Hstrip. }
  destruct (search_from_complete func_re true pre'
              ("def" +:+ ws +:+ String c tail')) as [m Hm].
  { intros b'. by apply func_re_complete. }
  fold (search func_re (pre' +:+ "def" +:+ ws +:+ String c tail')) in Hm.
  rewrite <- Hline in Hm. exists (group m).
  rewrite (found_function _ _ _ Hm). split; [done|].
  apply search_from_inv in Hm as (p & s' & b' & _ & Hm).
  apply func_re_inv in Hm as (ws' & id & _ & _ & _ & Hid1 & Hid2 & Hg).
  unfold group. by rewrite Hg.
Qed.

Lemma def_anywhere_adds_function_witness :
  (exists id,
     functions (process_line empty_context
                  ("s = " +:+ dquote +:+ "def helper" +:+ dquote))
     = functions empty_context ++ [id]
     /\ id <> "" /\ Str.all Char.isword id = true)
  /\ functions (extract_code_context "# def foo") = ["foo"]
  /\ functions (extract_code_context
                  ("s = " +:+ dquote +:+ "def helper" +:+ dquote))
     = ["helper"].
Proof.
  apply (def_anywhere_adds_function empty_context
           ("s = " +:+ dquote +:+ "def helper" +:+ dquote)
           ("s = " +:+ dquote) " " "h" ("elper" +:+ dquote)).
  - reflexivity.
  - discriminate.
  - reflexivity.
  - reflexivity.
Defined.

(** ** Equality comparisons (C9) *)

(** C9: a line that, once stripped, begins with an identifier followed,
    with or without whitespace in between, by [==] adds that identifier to
    the variables sequence. *)
Theorem equality_comparison_captured context line (id ws tail : string) :
  Str.strip line = id +:+ ws +:+ "==" +:+ tail ->
  id <> "" -> Str.all Char.isword id = true ->
  Str.all Char.isspace ws = true ->
  variables (process_line context line) = variables context ++ [id].
Proof.
  intros Hline Hne Hid Hws.
  by apply (stripped_assignment context line id ws (String "=" tail)).
Qed.

Lemma equality_comparison_captured_witness :
  variables (process_line empty_context "x == 5")
  = variables empty_context ++ ["x"].
Proof.
  apply (equality_comparison_captured empty_context "x == 5" "x" " " " 5").
  - reflexivity.
  - discriminate.
  - reflexivity.
  - reflexivity.
Defined.

(** ** Repeated short names (C10) *)

Lemma short_vars_app vars1 vars2 :
  short_vars_of (vars1 ++ vars2) = short_vars_of vars1 ++ short_vars_of vars2.
Proof. apply filter_app. Qed.

(** Every line on which the variable pattern captures the short name [v]
    counts once among the short variables. *)
Lemma short_occurrences (v : string) (lines : list string) :
  String.length v <= 2 ->
  length (filter (fun line => variables (line_context line) = [v]) lines)
  <= length (short_vars_of
               (flat_map (fun line => variables (line_context line)) lines)).
Proof.
  intros Hv. induction lines as [|l lines IH]; [done|]. simpl.
  rewrite short_vars_app, length_app, filter_cons. case_decide as Hl.
  - rewrite Hl. unfold short_vars_of at 1.
    rewrite filter_cons, decide_True by done. simpl. lia.
  - lia.
Qed.

Lemma names_rule_fires code_context feedback :
  2 < length (short_vars_of (variables code_context)) ->
  names_rule code_context feedback
  = add_technical_recommendation feedback
      (longer_names_recommendation
         (take 3 (short_vars_of (variables code_context)))).
Proof.
  intros H. unfold names_rule.
  destruct (variables code_context) as [|x xs] eqn:E; [simpl in H; lia|].
  by apply Nat.ltb_lt in H as ->.
Qed.

(** C10: the variables sequence keeps one entry per assignment line, so a
    short name captured on more than two lines makes the short-variable
    count exceed 2 and the naming recommendation fire, as the last technical
    recommendation; three assignments to [x] make it list [x, x, x]. *)
Theorem repeated_short_name_fires code_text (v : string)
    (emotion_analysis : gmap string value) commit_msg :
  String.length v <= 2 ->
  2 < length (filter (fun line => variables (line_context line) = [v])
                (Str.split "010" code_text)) ->
  let context := extract_code_context code_text in
  let short_vars := short_vars_of (variables context) in
  2 < length short_vars
  /\ last (technical_recommendations
             (generate_personalized_feedback context emotion_analysis commit_msg))
     = Some (longer_names_recommendation (take 3 short_vars))
  /\ variables (extract_code_context ("x = 1" +:+ nl +:+ "x = 2" +:+ nl +:+ "x = 3"))
     = ["x"; "x"; "x"]
  /\ technical_recommendations
       (generate_personalized_feedback
          (extract_code_context ("x = 1" +:+ nl +:+ "x = 2" +:+ nl +:+ "x = 3"))
          emotion_analysis commit_msg)
     = [" Try to use longer names for variables like: x, x, x"].
Proof.
  intros Hv Hcount context short_vars.
  assert (Hshort : 2 < length short_vars).
  { subst short_vars context. unfold extract_code_context.
    destruct (fold_process_line_fields (Str.split "010" code_text)
                empty_context) as (_ & _ & -> & _). simpl.
    eapply Nat.lt_le_trans; [exact Hcount|]. by apply short_occurrences. }
  split_and!; [done| |reflexivity|].
  - unfold generate_personalized_feedback.
    rewrite names_rule_fires by done. simpl. by rewrite last_snoc.
  - replace (extract_code_context
               ("x = 1" +:+ nl +:+ "x = 2" +:+ nl +:+ "x = 3"))
      with (Context [] [] ["x"; "x"; "x"] []) by reflexivity.
    unfold generate_personalized_feedback, feel_rules.
    repeat case_match; reflexivity.
Qed.

Lemma repeated_short_name_fires_witness :
  let code_text := "x = 1" +:+ nl +:+ "x = 2" +:+ nl +:+ "x = 3" in
  let context := extract_code_context code_text in
  let short_vars := short_vars_of (variables context) in
  2 < length short_vars
  /\ last (technical_recommendations
             (generate_personalized_feedback context neutral_default ""))
     = Some (longer_names_recommendation (take 3 short_vars))
  /\ variables (extract_code_context ("x = 1" +:+ nl +:+ "x = 2" +:+ nl +:+ "x = 3"))
     = ["x"; "x"; "x"]
  /\ technical_recommendations
       (generate_personalized_feedback
          (extract_code_context ("x = 1" +:+ nl +:+ "x = 2" +:+ nl +:+ "x = 3"))
          neutral_default "")
     = [" Try to use longer names for variables like: x, x, x"].
Proof.
  apply (repeated_short_name_fires
           ("x = 1" +:+ nl +:+ "x = 2" +:+ nl +:+ "x = 3") "x"
           neutral_default "").
  - vm_compute. lia.
  - vm_compute. lia.
Defined.

(** * Further properties of the program *)

(** ** More on strings *)

Lemma lstrip_drop_while (s : string) :
  Str.lstrip s = Str.drop_while Char.isspace s.
Proof. induction s as [|c s IH]; [done|]. simpl. by rewrite IH. Qed.

Lemma lstrip_split (s : string) :
  exists a, s = a +:+ Str.lstrip s /\ Str.all Char.isspace a = true.
Proof.
  rewrite lstrip_drop_while.
  destruct (span_spec Char.isspace s) as (Hs & Hall & _). eauto.
Qed.

Lemma rstrip_split (s : string) :
  exists b, s = Str.rstrip s +:+ b /\ Str.all Char.isspace b = true.
Proof.
  induction s as [|c s (b & Hs & Hb)]; [by exists ""|]. simpl.
  destruct (Str.rstrip s) as [|d r] eqn:E.
  - rewrite str_app_nil_l in Hs. subst b.
    destruct (Char.isspace c) eqn:Hc.
    + exists (String c s). simpl. by rewrite Hc, Hb.
    + by exists s.
  - exists b. by rewrite str_app_cons, <- Hs.
Qed.

(** The stripped line sits in the line between two runs of whitespace. *)
Lemma strip_split (s : string) :
  exists a b, s = a +:+ Str.strip s +:+ b
    /\ Str.all Char.isspace a = true /\ Str.all Char.isspace b = true.
Proof.
  destruct (rstrip_split s) as (b & Hs & Hb).
  destruct (lstrip_split (Str.rstrip s)) as (a & Hr & Ha).
  exists a, b. split; [|done]. unfold Str.strip.
  by rewrite <- str_app_assoc, <- Hr.
Qed.

(** A text is right-stripped when it is empty or ends with a character that
    is not whitespace; so are its suffixes. *)
Lemma rstrip_fixed_tail c (s : string) :
  Str.rstrip (String c s) = String c s -> Str.rstrip s = s.
Proof.
  simpl. destruct (Str.rstrip s) as [|d r] eqn:E.
  - destruct (Char.isspace c); [done|]. by intros [= <-].
  - by intros [= <-].
Qed.

Lemma rstrip_fixed_drop_while p (s : string) :
  Str.rstrip s = s -> Str.rstrip (Str.drop_while p s) = Str.drop_while p s.
Proof.
  induction s as [|c s IH]; [done|]. intros H. simpl.
  destruct (p c); [|done]. apply IH. by apply rstrip_fixed_tail in H.
Qed.

Lemma rstrip_idemp (s : string) : Str.rstrip (Str.rstrip s) = Str.rstrip s.
Proof.
  induction s as [|c s IH]; [done|]. simpl.
  destruct (Str.rstrip s) as [|d r] eqn:E.
  - destruct (Char.isspace c) eqn:Hc; [done|]. simpl. by rewrite Hc.
  - simpl in *. by rewrite IH.
Qed.

Lemma lstrip_drop_while_space (s : string) :
  Str.lstrip (Str.drop_while Char.isspace s) = Str.drop_while Char.isspace s.
Proof.
  rewrite lstrip_drop_while.
  induction s as [|c s IH]; [done|]. simpl.
  destruct (Char.isspace c) eqn:Hc; [done|]. simpl. by rewrite Hc.
Qed.

Lemma rstrip_strip (s : string) : Str.rstrip (Str.strip s) = Str.strip s.
Proof.
  unfold Str.strip. rewrite lstrip_drop_while.
  apply rstrip_fixed_drop_while, rstrip_idemp.
Qed.

(** [strip] is idempotent. *)
Lemma strip_idemp (s : string) : Str.strip (Str.strip s) = Str.strip s.
Proof.
  unfold Str.strip at 1. rewrite rstrip_strip.
  unfold Str.strip. rewrite (lstrip_drop_while (Str.rstrip s)).
  apply lstrip_drop_while_space.
Qed.

Lemma strip_all_space (s : string) :
  Str.all Char.isspace s = true -> Str.strip s = "".
Proof. intros H. unfold Str.strip. by rewrite rstrip_spaces. Qed.

Lemma split_nonempty sep (s : string) : Str.split sep s <> [].
Proof.
  induction s as [|c s IH]; [done|]. simpl.
  destruct (Ascii.eqb c sep); [done|]. by destruct (Str.split sep s).
Qed.

(** Splitting distributes over a separator. *)
Lemma split_app sep (a b : string) :
  Str.split sep (a +:+ String sep b) = Str.split sep a ++ Str.split sep b.
Proof.
  induction a as [|c a IH].
  - rewrite str_app_nil_l. simpl. by rewrite Ascii.eqb_refl.
  - rewrite str_app_cons. simpl. rewrite IH.
    destruct (Ascii.eqb c sep); [done|].
    pose proof (split_nonempty sep a). by destruct (Str.split sep a).
Qed.

(** The fields of a text of whitespace are whitespace. *)
Lemma split_all_space sep p (s : string) :
  Str.all p s = true -> Forall (fun f => Str.all p f = true) (Str.split sep s).
Proof.
  induction s as [|c s IH]; [by repeat constructor|]. simpl.
  intros [Hc Hs]%andb_true_iff. specialize (IH Hs).
  destruct (Ascii.eqb c sep); [by constructor|].
  destruct (Str.split sep s) as [|f fs]; [by repeat constructor; simpl; rewrite Hc|].
  inversion IH; subst. constructor; [|done]. simpl. by rewrite Hc.
Qed.

(** ** The variable pattern, read backwards *)

Lemma var_re_inv b (s : string) st :
  match_here var_re b s = Some st ->
  exists id ws,
    s = id +:+ ws +:+ String "=" (rest st)
    /\ id <> "" /\ Str.all Char.isword id = true
    /\ Str.all Char.isspace ws = true
    /\ group1 st = Some id.
Proof.
  unfold match_here, var_re. simpl. destruct b; [|done].
  destruct s as [|c s]; [done|]. simpl.
  destruct (Char.isword c) eqn:Hc; [|done].
  intros (id & r1 & -> & Hid & H)%rep_inv. simpl in H.
  apply rep_inv in H as (ws & r2 & -> & Hws & H).
  destruct r2 as [|e tail]; [done|]. simpl in H.
  destruct (Ascii.eqb_spec "=" e) as [<-|]; [|done]. injection H as <-. simpl.
  exists (String c id), ws. split_and!.
  - reflexivity.
  - done.
  - simpl. by rewrite Hc, Hid.
  - done.
  - f_equal. exact (take_consumed (String c id) (ws +:+ String "=" tail)).
Qed.

(** ** What one line adds *)

Lemma line_context_fields line :
  comments (line_context line)
    = (if is_comment (Str.strip line)
       then [sub_empty marker_re (Str.strip line)] else [])
  /\ functions (line_context line)
    = match search func_re (Str.strip line) with
      | Some func_match => [group func_match]
      | None => []
      end
  /\ variables (line_context line)
    = match search var_re (Str.strip line) with
      | Some var_match => [group var_match]
      | None => []
      end.
Proof.
  unfold line_context, process_line, scan_variable, scan_function, scan_comment.
  destruct (search var_re _), (search func_re _), (is_comment _); done.
Qed.

Lemma is_comment_marker line :
  is_comment line = true -> Str.stops Char.ismarker line = false.
Proof.
  unfold is_comment. destruct line as [|c line]; [done|]. simpl.
  intros H. apply negb_false_iff. unfold Char.ismarker.
  apply orb_true_iff in H as [H|H].
  - rewrite andb_true_r in H. by rewrite Ascii.eqb_sym, H.
  - destruct line as [|d line]; [by rewrite andb_false_r in H|].
    apply andb_true_iff in H as [H _]. rewrite (Ascii.eqb_sym c "/"), H.
    apply orb_true_r.
Qed.

(** The body of a comment line: the markers and the whitespace after them
    are gone. *)
Lemma comment_body line :
  is_comment line = true ->
  sub_empty marker_re line
  = Str.drop_while Char.isspace (Str.drop_while Char.ismarker line).
Proof. intros H. by rewrite sub_marker_re, is_comment_marker. Qed.

Lemma search_found_function line func_match :
  search func_re line = Some func_match ->
  exists pre ws id tail,
    line = pre +:+ "def" +:+ ws +:+ id +:+ tail
    /\ ws <> "" /\ Str.all Char.isspace ws = true
    /\ id <> "" /\ Str.all Char.isword id = true
    /\ group func_match = id.
Proof.
  intros (pre & s' & b' & -> & H)%search_from_inv.
  apply func_re_inv in H as (ws & id & -> & Hws1 & Hws2 & Hid1 & Hid2 & Hg).
  exists pre, ws, id, (rest func_match). unfold group. by rewrite Hg.
Qed.

Lemma search_found_variable line var_match :
  search var_re line = Some var_match ->
  exists id ws tail,
    line = id +:+ ws +:+ String "=" tail
    /\ id <> "" /\ Str.all Char.isword id = true
    /\ Str.all Char.isspace ws = true
    /\ group var_match = id.
Proof.
  unfold var_re at 1. rewrite search_bol. fold var_re.
  intros (id & ws & -> & Hid1 & Hid2 & Hws & Hg)%var_re_inv.
  exists id, ws, (rest var_match). unfold group. by rewrite Hg.
Qed.

Lemma def_occurrence_found (line pre ws : string) c (tail : string) :
  line = pre +:+ "def" +:+ ws +:+ String c tail ->
  ws <> "" -> Str.all Char.isspace ws = true -> Char.isword c = true ->
  is_Some (search func_re (Str.strip line)).
Proof.
  intros -> Hne Hws Hc.
  destruct (strip_keeps_occurrence pre "d" ("ef" +:+ ws) c tail)
    as (pre' & tail' & Hstrip);
    [done|by apply isword_not_isspace|].
  assert (Hline : Str.strip (pre +:+ "def" +:+ ws +:+ String c tail)
                  = pre' +:+ "def" +:+ ws +:+ String c tail')
    by exact Hstrip.
  rewrite Hline. apply search_from_complete. intros b'.
  by apply func_re_complete.
Qed.

(** ** Extracted names *)

(** X1: every function name and every variable name the extraction
    returns is a non-empty run of word characters. *)
Theorem extracted_names_are_words code_text :
  let context := extract_code_context code_text in
  Forall (fun id => id <> "" /\ Str.all Char.isword id = true)
    (functions context)
  /\ Forall (fun id => id <> "" /\ Str.all Char.isword id = true)
       (variables context).
Proof.
  intros context. subst context. unfold extract_code_context.
  destruct (fold_process_line_fields (Str.split "010" code_text)
              empty_context) as (_ & -> & -> & _). simpl.
  induction (Str.split "010" code_text) as [|l ls [IH1 IH2]]; [done|]. simpl.
  destruct (line_context_fields l) as (_ & -> & ->).
  split; apply Forall_app; split; try done.
  - destruct (search func_re _) as [m|] eqn:E; [|done].
    apply search_found_function in E
      as (pre & ws & id & tail & _ & _ & _ & ? & ? & ->).
    by repeat constructor.
  - destruct (search var_re _) as [m|] eqn:E; [|done].
    apply search_found_variable in E as (id & ws & tail & _ & ? & ? & _ & ->).
    by repeat constructor.
Qed.

(** X2: a line adds the variable [id] exactly when the stripped line is
    [id], a non-empty run of word characters, then optional whitespace, then
    [=]; whatever follows the [=] does not matter. *)
Theorem variable_detected_iff line (id : string) :
  variables (line_context line) = [id]
  <-> exists ws tail,
        Str.strip line = id +:+ ws +:+ String "=" tail
        /\ id <> "" /\ Str.all Char.isword id = true
        /\ Str.all Char.isspace ws = true.
Proof.
  split.
  - destruct (line_context_fields line) as (_ & _ & ->).
    destruct (search var_re _) as [m|] eqn:E; [|done].
    apply search_found_variable in E as (id' & ws & tail & E & ? & ? & ? & ->).
    intros [= <-]. by exists ws, tail.
  - intros (ws & tail & Hline & Hne & Hid & Hws).
    apply (stripped_assignment empty_context line id ws tail); done.
Qed.

(** X3: a line adds a function name exactly when [def], a non-empty run of
    whitespace and a word character occur in it, one after the other. *)
Theorem function_detected_iff line :
  functions (line_context line) <> []
  <-> exists pre ws c tail,
        line = pre +:+ "def" +:+ ws +:+ String c tail
        /\ ws <> "" /\ Str.all Char.isspace ws = true
        /\ Char.isword c = true.
Proof.
  destruct (line_context_fields line) as (_ & -> & _). split.
  - destruct (search func_re _) as [m|] eqn:E; [intros _|done].
    apply search_found_function in E
      as (pre & ws & id & tail & E & ? & ? & Hid & Hw & _).
    destruct id as [|c id]; [done|].
    apply andb_true_iff in Hw as [Hc _].
    destruct (strip_split line) as (a & b & Hline & _ & _).
    exists (a +:+ pre), ws, c, (id +:+ tail +:+ b). split; [|done].
    rewrite Hline at 1. rewrite E.
    by repeat (rewrite str_app_assoc || rewrite str_app_cons
               || rewrite str_app_nil_l).
  - intros (pre & ws & c & tail & Hline & Hne & Hws & Hc).
    destruct (def_occurrence_found line pre ws c tail) as [m ->]; done.
Qed.

(** ** Comment bodies *)

(** X4: every extracted comment is stripped: it neither begins nor ends
    with whitespace. *)
Theorem comments_are_stripped code_text :
  Forall (fun comment => Str.strip comment = comment)
    (comments (extract_code_context code_text)).
Proof.
  unfold extract_code_context.
  destruct (fold_process_line_fields (Str.split "010" code_text)
              empty_context) as (-> & _). simpl.
  induction (Str.split "010" code_text) as [|l ls IH]; [done|]. simpl.
  apply Forall_app. split; [|done].
  destruct (line_context_fields l) as (-> & _).
  destruct (is_comment _) eqn:E; [|done]. repeat constructor.
  rewrite comment_body by done.
  pose proof (rstrip_strip l) as Hr. revert Hr.
  generalize (Str.strip l). intros s Hr. unfold Str.strip.
  rewrite (rstrip_fixed_drop_while Char.isspace)
    by (by apply rstrip_fixed_drop_while).
  apply lstrip_drop_while_space.
Qed.

(** ** Texts, line by line *)

Lemma extract_fields code_text :
  let context := extract_code_context code_text in
  let lines := Str.split "010" code_text in
  comments context = flat_map (fun l => comments (line_context l)) lines
  /\ functions context = flat_map (fun l => functions (line_context l)) lines
  /\ variables context = flat_map (fun l => variables (line_context l)) lines
  /\ todo_items context = flat_map (fun l => todo_items (line_context l)) lines.
Proof.
  intros context lines. subst context lines. unfold extract_code_context.
  by destruct (fold_process_line_fields (Str.split "010" code_text)
                 empty_context) as (-> & -> & -> & ->).
Qed.

(** X5: the extraction works line by line: the context of two texts put
    on successive lines is the context of the first followed, sequence by
    sequence, by the context of the second. *)
Theorem extract_two_texts (a b : string) :
  let context := extract_code_context (a +:+ nl +:+ b) in
  comments context
    = comments (extract_code_context a) ++ comments (extract_code_context b)
  /\ functions context
    = functions (extract_code_context a) ++ functions (extract_code_context b)
  /\ variables context
    = variables (extract_code_context a) ++ variables (extract_code_context b)
  /\ todo_items context
    = todo_items (extract_code_context a) ++ todo_items (extract_code_context b).
Proof.
  intros context. subst context.
  destruct (extract_fields (a +:+ nl +:+ b)) as (-> & -> & -> & ->).
  destruct (extract_fields a) as (-> & -> & -> & ->).
  destruct (extract_fields b) as (-> & -> & -> & ->).
  change (a +:+ nl +:+ b) with (a +:+ String "010" b).
  by rewrite split_app, !flat_map_app.
Qed.

Lemma line_counts line :
  length (comments (line_context line)) + length (variables (line_context line))
    <= 1
  /\ length (functions (line_context line)) <= 1.
Proof.
  destruct (line_context_fields line) as (-> & -> & ->). split.
  - destruct (is_comment _) eqn:E.
    + rewrite (var_re_stops (Str.strip line)) by by apply is_comment_stops.
      simpl. lia.
    + destruct (search var_re _); simpl; lia.
  - destruct (search func_re _); simpl; lia.
Qed.

(** X6: a line is a comment or an assignment, never both, and gives at
    most one function name: the comments and the variables together, and
    the functions, are no more numerous than the lines of the text. *)
Theorem counts_bounded_by_lines code_text :
  let context := extract_code_context code_text in
  let lines := Str.split "010" code_text in
  length (comments context) + length (variables context) <= length lines
  /\ length (functions context) <= length lines.
Proof.
  intros context lines. subst context.
  destruct (extract_fields code_text) as (-> & -> & -> & _). fold lines.
  induction lines as [|l ls [IH1 IH2]]; [done|]. simpl.
  rewrite !length_app. destruct (line_counts l). lia.
Qed.

Lemma blank_line context line :
  Str.strip line = "" -> process_line context line = context.
Proof.
  intros H. unfold process_line. rewrite H. by destruct context.
Qed.

(** X7: a text of whitespace only (blank lines included) gives the empty
    context. *)
Theorem blank_text_empty_context code_text :
  Str.all Char.isspace code_text = true ->
  extract_code_context code_text = empty_context.
Proof.
  intros H. unfold extract_code_context.
  apply (split_all_space "010") in H. revert H.
  generalize empty_context.
  induction (Str.split "010" code_text) as [|l ls IH]; intros context H;
    [done|].
  inversion H; subst. simpl. rewrite blank_line by by apply strip_all_space.
  by apply IH.
Qed.

Lemma blank_text_empty_context_witness :
  extract_code_context ("   " +:+ nl +:+ nl +:+ "  ") = empty_context.
Proof. apply blank_text_empty_context. reflexivity. Defined.

(** ** The classifier step, whatever the models do *)

Lemma char_lower_idemp c : Char.lower (Char.lower c) = Char.lower c.
Proof. by_char c. Qed.

Lemma lower_idemp (s : string) : Str.lower (Str.lower s) = Str.lower s.
Proof.
  induction s as [|c s IH]; [done|]. simpl. by rewrite char_lower_idemp, IH.
Qed.

(** The two shapes of a run of the classifier step on a non-empty list. *)
Lemma analyze_cases self t ts w :
  let text := Str.join " " (t :: ts) in
  let called1 := invocations w ++ [(EmotionModel, text)] in
  let called2 := called1 ++ [(SentimentModel, text)] in
  (exists e,
     (first_prediction (emotion_classifier self text) = Raise e
      /\ analyze_developer_emotion self (t :: ts) w
         = (Ok neutral_default,
            World (stdout w ++ [" Analysis error: " +:+ e]) called1 (clock w)))
     \/ (is_Some (match first_prediction (emotion_classifier self text) with
                  | Ok p => Some p | Raise _ => None end)
         /\ analyze_developer_emotion self (t :: ts) w
            = (Ok neutral_default,
               World (stdout w ++ [" Analysis error: " +:+ e]) called2 (clock w))))
  \/ (exists p1 p2,
        first_prediction (emotion_classifier self text) = Ok p1
        /\ first_prediction (sentiment_analyzer self text) = Ok p2
        /\ analyze_developer_emotion self (t :: ts) w
           = (Ok {[ "emotion" := VStr (Str.lower (label p1));
                    "emotion_confidence" := VFloat (score p1);
                    "sentiment" := VStr (Str.lower (label p2));
                    "sentiment_confidence" := VFloat (score p2) ]},
              World (stdout w) called2 (clock w))).
Proof.
  intros text called1 called2. subst called1 called2.
  unfold analyze_developer_emotion. cbv zeta. fold text.
  unfold try_except, bind, invoke_first, print, ret. simpl.
  destruct (first_prediction (emotion_classifier self text)) as [p1|e].
  - destruct (first_prediction (sentiment_analyzer self text)) as [p2|e].
    + right. by exists p1, p2.
    + left. exists e. right. split; [by eexists|done].
  - left. exists e. by left.
Qed.

(** X8: whatever the models return, the result of the classifier step has
    the keys [emotion] and [sentiment], both lower-case strings; it is the
    neutral default, or it has the two model confidences and no key
    [confidence]. *)
Theorem analysis_has_labels self text_elements w emotion_analysis w' :
  analyze_developer_emotion self text_elements w = (Ok emotion_analysis, w') ->
  (exists e s,
     emotion_analysis !! "emotion" = Some (VStr e)
     /\ emotion_analysis !! "sentiment" = Some (VStr s)
     /\ Str.lower e = e /\ Str.lower s = s)
  /\ (emotion_analysis = neutral_default
      \/ (emotion_analysis !! "confidence" = None
          /\ is_Some (emotion_analysis !! "emotion_confidence")
          /\ is_Some (emotion_analysis !! "sentiment_confidence"))).
Proof.
  assert (Hn : exists e s,
    neutral_default !! "emotion" = Some (VStr e)
    /\ neutral_default !! "sentiment" = Some (VStr s)
    /\ Str.lower e = e /\ Str.lower s = s) by by exists "neutral", "neutral".
  destruct text_elements as [|t ts].
  - intros [= <- _]. split; [done|by left].
  - destruct (analyze_cases self t ts w)
      as [(e & [[_ ->]|[_ ->]])|(p1 & p2 & _ & _ & ->)].
    + intros [= <- _]. split; [done|by left].
    + intros [= <- _]. split; [done|by left].
    + intros [= <- _]. split.
      * exists (Str.lower (label p1)), (Str.lower (label p2)).
        by rewrite !lower_idemp.
      * right. split_and!; [done|by eexists..].
Qed.

Lemma analysis_has_labels_witness :
  (exists e s,
     neutral_default !! "emotion" = Some (VStr e)
     /\ neutral_default !! "sentiment" = Some (VStr s)
     /\ Str.lower e = e /\ Str.lower s = s)
  /\ (neutral_default = neutral_default
      \/ (neutral_default !! "confidence" = None
          /\ is_Some (neutral_default !! "emotion_confidence")
          /\ is_Some (neutral_default !! "sentiment_confidence"))).
Proof.
  apply (analysis_has_labels offline ["ugh"] fresh_world neutral_default
           (World [" Analysis error: model unavailable"]
              [(EmotionModel, "ugh")] (clock fresh_world))).
  reflexivity.
Defined.

(** X9: a run of the classifier step leaves the clock alone, prints
    nothing or one diagnostic line (and then returns the neutral default),
    and invokes the models at most twice, each time on the joined text. *)
Theorem analyze_effects self text_elements w emotion_analysis w' :
  analyze_developer_emotion self text_elements w = (Ok emotion_analysis, w') ->
  clock w' = clock w
  /\ (stdout w' = stdout w
      \/ exists e, stdout w' = stdout w ++ [" Analysis error: " +:+ e]
                   /\ emotion_analysis = neutral_default)
  /\ exists calls,
       invocations w' = invocations w ++ calls
       /\ length calls <= 2
       /\ Forall (fun call => call.2 = Str.join " " text_elements) calls.
Proof.
  destruct text_elements as [|t ts].
  - rewrite analyze_empty. intros [= ? ?]; subst. split_and!; [done|by left|].
    exists []. rewrite app_nil_r. split_and!; [done|simpl; lia|constructor].
  - destruct (analyze_cases self t ts w)
      as [(e & [[_ ->]|[_ ->]])|(p1 & p2 & _ & _ & ->)];
      intros [= ? ?]; subst; simpl; (split_and!; [done| |]).
    + right. by exists e.
    + eexists [_]. split_and!; [done|simpl; lia|by repeat constructor].
    + right. by exists e.
    + eexists [_; _]. rewrite <- app_assoc.
      split_and!; [done|simpl; lia|by repeat constructor].
    + by left.
    + eexists [_; _]. rewrite <- app_assoc.
      split_and!; [done|simpl; lia|by repeat constructor].
Qed.

Lemma analyze_effects_witness :
  let w' := World [" Analysis error: model unavailable"]
              [(EmotionModel, "ugh why")] (clock fresh_world) in
  clock w' = clock fresh_world
  /\ (stdout w' = stdout fresh_world
      \/ exists e,
           stdout w' = stdout fresh_world ++ [" Analysis error: " +:+ e]
           /\ neutral_default = neutral_default)
  /\ exists calls,
       invocations w' = invocations fresh_world ++ calls
       /\ length calls <= 2
       /\ Forall (fun call => call.2 = Str.join " " ["ugh"; "why"]) calls.
Proof.
  apply (analyze_effects offline ["ugh"; "why"] fresh_world neutral_default
           (World [" Analysis error: model unavailable"]
              [(EmotionModel, "ugh why")] (clock fresh_world))).
  reflexivity.
Defined.

(** X10: when the emotion model raises, the sentiment model is not
    invoked: the step records the one call, prints the diagnostic and
    returns the neutral default. *)
Theorem emotion_failure_skips_sentiment self text_elements e w :
  text_elements <> [] ->
  first_prediction (emotion_classifier self (Str.join " " text_elements))
    = Raise e ->
  analyze_developer_emotion self text_elements w
  = (Ok neutral_default,
     World (stdout w ++ [" Analysis error: " +:+ e])
       (invocations w ++ [(EmotionModel, Str.join " " text_elements)])
       (clock w)).
Proof.
  intros Hne He. destruct text_elements as [|t ts]; [done|].
  destruct (analyze_cases self t ts w)
    as [(e' & [[He' ->]|[[p Hp] _]])|(p1 & p2 & Hp & _)].
  - rewrite He in He'. by injection He' as <-.
  - by rewrite He in Hp.
  - by rewrite He in Hp.
Qed.

Lemma emotion_failure_skips_sentiment_witness :
  analyze_developer_emotion offline ["ugh"; "why"] fresh_world
  = (Ok neutral_default,
     World (stdout fresh_world ++ [" Analysis error: " +:+ "model unavailable"])
       (invocations fresh_world ++ [(EmotionModel, Str.join " " ["ugh"; "why"])])
       (clock fresh_world)).
Proof.
  apply (emotion_failure_skips_sentiment offline ["ugh"; "why"]
           "model unavailable" fresh_world).
  - discriminate.
  - reflexivity.
Defined.

(** ** The feedback rules *)

Lemma early_rules_keep code_context emotion feedback :
  let feedback' :=
    todo_rule code_context
      (comment_rule code_context (feel_rules emotion feedback)) in
  technical_recommendations feedback' = technical_recommendations feedback.
Proof.
  unfold todo_rule, comment_rule, feel_rules. repeat case_match; done.
Qed.

Lemma suggestion_rules code_context emotion feedback :
  code_suggestions
    (names_rule code_context
       (bad_words_rule code_context
          (todo_rule code_context
             (comment_rule code_context (feel_rules emotion feedback)))))
  = code_suggestions feedback
    ++ (if (length (comments code_context) =? 0)%nat
        then [more_comments_suggestion] else [])
    ++ (if (3 <? length (todo_items code_context))%nat
        then [todo_suggestion (length (todo_items code_context))] else []).
Proof.
  unfold names_rule, bad_words_rule, todo_rule, comment_rule, feel_rules.
  repeat case_match; simpl; by rewrite ?app_nil_r, <- ?app_assoc.
Qed.

(** X11: the feedback holds at most one emotional insight, one
    motivational note, two code suggestions and two technical
    recommendations. *)
Theorem feedback_sizes code_context (emotion_analysis : gmap string value)
    commit_msg :
  let feedback :=
    generate_personalized_feedback code_context emotion_analysis commit_msg in
  length (emotional_insights feedback) <= 1
  /\ length (motivational_notes feedback) <= 1
  /\ length (code_suggestions feedback) <= 2
  /\ length (technical_recommendations feedback) <= 2.
Proof.
  unfold generate_personalized_feedback, names_rule, bad_words_rule, todo_rule,
    comment_rule, feel_rules.
  repeat case_match; simpl; lia.
Qed.

Lemma extract_todo_count code_text :
  length (todo_items (extract_code_context code_text))
  <= length (comments (extract_code_context code_text)).
Proof.
  destruct (extract_fields code_text) as (-> & _ & _ & ->).
  induction (Str.split "010" code_text) as [|l ls IH]; [done|]. simpl.
  rewrite !length_app, line_todo_items.
  pose proof (length_filter (fun c => is_todo c = true)
                (comments (line_context l))). lia.
Qed.

(** X12: on an extracted context the two code suggestions exclude each
    other: without comments only the advice to comment is given, with
    comments only the TODO advice, and that only above three TODO items. *)
Theorem one_code_suggestion code_text (emotion_analysis : gmap string value)
    commit_msg :
  let context := extract_code_context code_text in
  code_suggestions
    (generate_personalized_feedback context emotion_analysis commit_msg)
  = match comments context with
    | [] => [more_comments_suggestion]
    | _ => if (3 <? length (todo_items context))%nat
           then [todo_suggestion (length (todo_items context))] else []
    end.
Proof.
  intros context. unfold generate_personalized_feedback.
  rewrite suggestion_rules. simpl.
  pose proof (extract_todo_count code_text) as Hle. fold context in Hle.
  destruct (comments context) as [|c cs]; simpl in *.
  - destruct (todo_items context); [done|simpl in Hle; lia].
  - done.
Qed.

Lemma lower_app (a b : string) :
  Str.lower (a +:+ b) = Str.lower a +:+ Str.lower b.
Proof.
  induction a as [|c a IH]; [done|]. rewrite str_app_cons. simpl.
  by rewrite IH, str_app_cons.
Qed.

Lemma lower_join (l : list string) :
  Str.lower (Str.join " " l) = Str.join " " (map Str.lower l).
Proof.
  induction l as [|x [|y l] IH]; [done..|].
  change (Str.join " " (x :: y :: l)) with (x +:+ " " +:+ Str.join " " (y :: l)).
  rewrite !lower_app, IH. reflexivity.
Qed.

Lemma startswith_before_space (word x b : string) :
  spaceless word = true ->
  Str.startswith word (x +:+ String " " b) = Str.startswith word x.
Proof.
  unfold spaceless. revert x. induction word as [|c word IH]; intros x H.
  - by destruct x.
  - simpl in H. apply andb_true_iff in H as [Hc Hw].
    destruct x as [|d x].
    + rewrite str_app_nil_l. simpl.
      apply negb_true_iff in Hc. by rewrite Hc.
    + rewrite str_app_cons. simpl. by rewrite IH.
Qed.

Lemma contains_across_space (word a b : string) :
  word <> "" -> spaceless word = true ->
  Str.contains word (a +:+ String " " b)
  = Str.contains word a || Str.contains word b.
Proof.
  intros Hne Hw. induction a as [|c a IH].
  - rewrite str_app_nil_l.
    change (Str.contains word (String " " b))
      with (Str.startswith word ("" +:+ String " " b) || Str.contains word b).
    rewrite startswith_before_space by done.
    by destruct word.
  - rewrite str_app_cons.
    change (Str.contains word (String c (a +:+ String " " b)))
      with (Str.startswith word (String c a +:+ String " " b)
            || Str.contains word (a +:+ String " " b)).
    rewrite startswith_before_space, IH by done.
    change (Str.contains word (String c a))
      with (Str.startswith word (String c a) || Str.contains word a).
    by rewrite orb_assoc.
Qed.

(** A word without a space occurs in the joined comments exactly when it
    occurs in one of them. *)
Lemma contains_join (word : string) (l : list string) :
  word <> "" -> spaceless word = true ->
  Str.contains word (Str.join " " l) = existsb (Str.contains word) l.
Proof.
  intros Hne Hw. induction l as [|x [|y l] IH].
  - by destruct word.
  - simpl. by rewrite orb_false_r.
  - change (Str.join " " (x :: y :: l))
      with (x +:+ String " " (Str.join " " (y :: l))).
    rewrite contains_across_space, IH by done. done.
Qed.

Lemma technical_rules code_context emotion feedback :
  technical_recommendations
    (names_rule code_context
       (bad_words_rule code_context
          (todo_rule code_context
             (comment_rule code_context (feel_rules emotion feedback)))))
  = technical_recommendations feedback
    ++ (if existsb
             (fun word =>
                Str.contains word
                  (Str.lower (Str.join " " (comments code_context))))
             bad_words
        then [bad_words_recommendation] else [])
    ++ (if (2 <? length (short_vars_of (variables code_context)))%nat
        then [longer_names_recommendation
                (take 3 (short_vars_of (variables code_context)))]
        else []).
Proof.
  pose proof (early_rules_keep code_context emotion feedback) as He.
  simpl in He. unfold names_rule, bad_words_rule. fold bad_words.
  destruct (variables code_context) as [|v vs];
    destruct (existsb _ bad_words); simpl; rewrite ?He, ?app_nil_r; try done;
    destruct (2 <? _)%nat; simpl; by rewrite ?He, ?app_nil_r, <- ?app_assoc.
Qed.

Lemma bad_word_shape (word : string) :
  word ∈ bad_words -> word <> "" /\ spaceless word = true.
Proof.
  unfold bad_words. rewrite !elem_of_cons, elem_of_nil.
  by intros [->|[->|[->|[->|[]]]]].
Qed.

Lemma bad_word_found code_context :
  existsb
    (fun word =>
       Str.contains word (Str.lower (Str.join " " (comments code_context))))
    bad_words = true
  <-> exists comment word,
        comment ∈ comments code_context /\ word ∈ bad_words
        /\ Str.contains word (Str.lower comment) = true.
Proof.
  rewrite existsb_exists. split.
  - intros (word & Hin & Hc). apply list_elem_of_In in Hin.
    destruct (bad_word_shape word Hin) as [Hne Hsp].
    rewrite lower_join, contains_join in Hc by done.
    apply existsb_exists in Hc as (lc & Hlc & Hc).
    apply in_map_iff in Hlc as (comment & <- & Hcom).
    exists comment, word. by rewrite list_elem_of_In.
  - intros (comment & word & Hcom & Hin & Hc). exists word.
    destruct (bad_word_shape word Hin) as [Hne Hsp].
    split; [by apply list_elem_of_In|].
    rewrite lower_join, contains_join by done.
    apply existsb_exists. exists (Str.lower comment).
    split; [|done]. by apply in_map, list_elem_of_In.
Qed.

(** X13: the recommendation against self-deprecating comments is given
    exactly when one single comment contains, in any letter case, one of
    [hack], [dirty], [terrible], [broken]: joining the comments with spaces
    never makes a word out of the end of one comment and the start of the
    next. *)
Theorem bad_words_iff code_context (emotion_analysis : gmap string value)
    commit_msg :
  bad_words_recommendation
    ∈ technical_recommendations
        (generate_personalized_feedback code_context emotion_analysis commit_msg)
  <-> exists comment word,
        comment ∈ comments code_context /\ word ∈ bad_words
        /\ Str.contains word (Str.lower comment) = true.
Proof.
  unfold generate_personalized_feedback. rewrite technical_rules.
  cbn [technical_recommendations]. rewrite app_nil_l.
  rewrite <- bad_word_found. destruct (existsb _ bad_words).
  - split; [done|]. intros _. apply elem_of_cons. by left.
  - split; [|done]. rewrite app_nil_l. destruct (2 <? _)%nat.
    + intros Hin%list_elem_of_singleton. discriminate Hin.
    + by intros Hin%elem_of_nil.
Qed.

(** X14: with at most two short variable entries no naming recommendation
    is given; with more, the recommendation lists exactly the first three
    short entries, each of at most two characters. *)
Theorem naming_recommendation code_context
    (emotion_analysis : gmap string value) commit_msg :
  let recommendations :=
    technical_recommendations
      (generate_personalized_feedback code_context emotion_analysis commit_msg) in
  let short_vars := short_vars_of (variables code_context) in
  (length short_vars <= 2 ->
   Forall (fun r => r = bad_words_recommendation) recommendations)
  /\ (2 < length short_vars ->
      exists n1 n2 n3,
        take 3 short_vars = [n1; n2; n3]
        /\ String.length n1 <= 2 /\ String.length n2 <= 2
        /\ String.length n3 <= 2
        /\ last recommendations
           = Some (" Try to use longer names for variables like: "
                   +:+ n1 +:+ ", " +:+ n2 +:+ ", " +:+ n3)).
Proof.
  intros recommendations short_vars. subst recommendations.
  unfold generate_personalized_feedback. rewrite technical_rules.
  cbn [technical_recommendations]. rewrite app_nil_l.
  fold short_vars. split; intros Hlen.
  - apply Nat.ltb_ge in Hlen as ->. rewrite app_nil_r.
    destruct (existsb _ bad_words); by repeat constructor.
  - pose proof Hlen as Hlt. apply Nat.ltb_lt in Hlt as ->.
    assert (Hshort : Forall (fun v => String.length v <= 2) short_vars).
    { subst short_vars. unfold short_vars_of. apply Forall_forall.
      intros v Hv. by apply list_elem_of_filter in Hv as [? _]. }
    destruct short_vars as [|n1 [|n2 [|n3 rest]]]; simpl in Hlen; try lia.
    exists n1, n2, n3. inversion Hshort as [|? ? H1 Hs1]; subst.
    inversion Hs1 as [|? ? H2 Hs2]; subst.
    inversion Hs2 as [|? ? H3 _]; subst.
    split_and!; [done..|]. rewrite last_snoc. reflexivity.
Qed.

Lemma naming_recommendation_witness :
  Forall (fun r => r = bad_words_recommendation)
    (technical_recommendations
       (generate_personalized_feedback
          (Context ["a hack"] [] ["a"; "b"; "result"] [])
          neutral_default ""))
  /\ exists n1 n2 n3,
       take 3 (short_vars_of ["a"; "b"; "result"; "x"; "y"]) = [n1; n2; n3]
       /\ String.length n1 <= 2 /\ String.length n2 <= 2
       /\ String.length n3 <= 2
       /\ last (technical_recommendations
                  (generate_personalized_feedback
                     (Context [] [] ["a"; "b"; "result"; "x"; "y"] [])
                     neutral_default ""))
          = Some (" Try to use longer names for variables like: "
                  +:+ n1 +:+ ", " +:+ n2 +:+ ", " +:+ n3).
Proof.
  split.
  - apply (naming_recommendation
             (Context ["a hack"] [] ["a"; "b"; "result"] [])
             neutral_default "").
    vm_compute. lia.
  - apply (naming_recommendation
             (Context [] [] ["a"; "b"; "result"; "x"; "y"] [])
             neutral_default "").
    vm_compute. lia.
Defined.

(** X15: the feedback depends on the emotion label, the comments, the
    number of TODO items and the variables only: function names, the
    sentiment, the confidences and the commit message never change it. *)
Theorem feedback_depends_on context1 context2
    (analysis1 analysis2 : gmap string value) commit1 commit2 :
  comments context1 = comments context2 ->
  length (todo_items context1) = length (todo_items context2) ->
  variables context1 = variables context2 ->
  analysis1 !! "emotion" = analysis2 !! "emotion" ->
  generate_personalized_feedback context1 analysis1 commit1
  = generate_personalized_feedback context2 analysis2 commit2.
Proof.
  intros Hc Ht Hv He.
  unfold generate_personalized_feedback, names_rule, bad_words_rule, todo_rule,
    comment_rule.
  by rewrite Hc, Ht, Hv, He.
Qed.

Lemma feedback_depends_on_witness :
  generate_personalized_feedback
    (Context ["a hack"] ["f"] ["x"] ["t"])
    {[ "emotion" := VStr "joy"; "sentiment" := VStr "positive" ]} "first"
  = generate_personalized_feedback
      (Context ["a hack"] ["g"; "h"] ["x"] ["u"])
      {[ "emotion" := VStr "joy"; "sentiment" := VStr "negative" ]} "second".
Proof. apply feedback_depends_on; reflexivity. Defined.

(** ** The review, whatever the models do *)

Lemma analyze_frame self text_elements w emotion_analysis w' :
  analyze_developer_emotion self text_elements w = (Ok emotion_analysis, w') ->
  clock w' = clock w
  /\ (stdout w' = stdout w
      \/ exists e, stdout w' = stdout w ++ [" Analysis error: " +:+ e])
  /\ exists e s, emotion_analysis !! "emotion" = Some (VStr e)
                 /\ emotion_analysis !! "sentiment" = Some (VStr s).
Proof.
  destruct text_elements as [|t ts].
  - rewrite analyze_empty. intros [= ? ?]; subst.
    split_and!; [done|by left|by exists "neutral", "neutral"].
  - destruct (analyze_cases self t ts w)
      as [(e & [[_ ->]|[_ ->]])|(p1 & p2 & _ & _ & ->)];
      intros [= ? ?]; subst; simpl; (split_and!; [done| |]).
    + right. by exists e.
    + by exists "neutral", "neutral".
    + right. by exists e.
    + by exists "neutral", "neutral".
    + by left.
    + by eexists _, _.
Qed.

(** X16: a review never raises, whatever the models do: it returns a
    report that carries the developer name and the clock's time, and it
    prints its first line and after it at most the diagnostic of the
    classifier step. *)
Theorem review_code_returns self code_text commit_message developer_name w :
  exists report w',
    review_code self code_text commit_message developer_name w = (Ok report, w')
    /\ developer report = developer_name
    /\ timestamp report = clock w
    /\ clock w' = clock w
    /\ (stdout w' = stdout w ++ [looking_line developer_name]
        \/ exists e,
             stdout w' = stdout w ++ [looking_line developer_name;
                                       " Analysis error: " +:+ e]).
Proof.
  destruct (analyze_returns self
    (text_for_analysis (extract_code_context code_text) commit_message)
    (World (stdout w ++ [looking_line developer_name]) (invocations w)
       (clock w))) as (ea & w' & Hea).
  destruct (analyze_frame _ _ _ _ _ Hea) as (Hclock & Hout & _).
  simpl in Hclock, Hout.
  eexists _, w'. rewrite (review_code_unfold _ _ _ _ _ _ _ Hea). simpl.
  split_and!; [done..|].
  destruct Hout as [->|[e ->]]; [by left|right].
  exists e. by rewrite <- app_assoc.
Qed.

Lemma flat_map_at_most_one {A B} (f : A -> list B) (l : list A) :
  (forall x, length (f x) <= 1) -> length (flat_map f l) <= length l.
Proof.
  intros Hf. induction l as [|x l IH]; [done|]. simpl.
  rewrite length_app. specialize (Hf x). lia.
Qed.

(** X17: in every report the TODO count is at most the comment count, and
    the comment count and the function count are at most the number of
    lines of the reviewed text. *)
Theorem report_metrics_bounds self code_text commit_message developer_name w
    report w' :
  review_code self code_text commit_message developer_name w = (Ok report, w') ->
  todo_count (code_metrics report) <= comments_count (code_metrics report)
  /\ comments_count (code_metrics report)
     <= length (Str.split "010" code_text)
  /\ functions_count (code_metrics report)
     <= length (Str.split "010" code_text).
Proof.
  destruct (analyze_returns self
    (text_for_analysis (extract_code_context code_text) commit_message)
    (World (stdout w ++ [looking_line developer_name]) (invocations w)
       (clock w))) as (ea & w1 & Hea).
  rewrite (review_code_unfold _ _ _ _ _ _ _ Hea). intros [= <- _]. simpl.
  split_and!.
  - apply extract_todo_count.
  - destruct (extract_fields code_text) as (-> & _).
    apply flat_map_at_most_one. intros l. destruct (line_counts l). lia.
  - destruct (extract_fields code_text) as (_ & -> & _).
    apply flat_map_at_most_one. intros l. by destruct (line_counts l).
Qed.

Lemma report_metrics_bounds_witness :
  let report := MkReport "Developer" (clock fresh_world) neutral_default
                  (Metrics 0 0 0)
                  (generate_personalized_feedback
                     (extract_code_context "x = 1") neutral_default "") in
  todo_count (code_metrics report) <= comments_count (code_metrics report)
  /\ comments_count (code_metrics report) <= length (Str.split "010" "x = 1")
  /\ functions_count (code_metrics report) <= length (Str.split "010" "x = 1").
Proof.
  apply (report_metrics_bounds joyful "x = 1" "" "Developer" fresh_world _
           (World [looking_line "Developer"] [] (clock fresh_world))).
  reflexivity.
Defined.

(** ** print_report *)

Lemma for_each_print (f : string -> string) (l : list string) w :
  for_each l (fun x => print (f x)) w = (Ok tt, printed w (map f l)).
Proof.
  revert w. induction l as [|x l IH]; intros w.
  - destruct w. unfold printed. simpl. by rewrite app_nil_r.
  - simpl. unfold bind at 1. unfold print at 1. rewrite IH.
    unfold printed. simpl. by rewrite <- app_assoc.
Qed.

Lemma print_section_lines header entries w :
  print_section header entries w
  = (Ok tt, printed w (section_lines header entries)).
Proof.
  destruct entries as [|x l].
  - destruct w. unfold printed. simpl. by rewrite app_nil_r.
  - unfold print_section, section_lines, bind. unfold print at 1.
    rewrite for_each_print. unfold printed. simpl. by rewrite <- app_assoc.
Qed.

Lemma printed_printed w l1 l2 : printed (printed w l1) l2 = printed w (l1 ++ l2).
Proof. unfold printed. simpl. by rewrite <- app_assoc. Qed.

Lemma print_printed line w : print line w = (Ok tt, printed w [line]).
Proof. reflexivity. Qed.

Lemma print_report_lines title report w primary overall :
  default (VStr "N/A") (emotion_analysis report !! "emotion") = VStr primary ->
  default (VStr "N/A") (emotion_analysis report !! "sentiment") = VStr overall ->
  print_report title report w
  = (Ok tt, printed w (report_lines (title primary) (title overall) report)).
Proof.
  intros He Hs. unfold print_report. cbv zeta. rewrite He, Hs.
  unfold value_title, bind, ret.
  rewrite !print_printed, !print_section_lines, !printed_printed.
  rewrite print_printed, printed_printed.
  unfold report_lines. do 2 f_equal. simpl. by rewrite <- !app_assoc.
Qed.

(** X18: a report whose emotion and sentiment entries are strings, or are
    missing (then [N/A]), is printed without an exception as twelve header
    and metric lines, then for each non-empty feedback list its header and
    one dashed line per entry, in the order insights, suggestions,
    recommendations, notes, then the closing rule; the models and the clock
    are not touched. *)
Theorem print_report_output title report w primary overall :
  default (VStr "N/A") (emotion_analysis report !! "emotion") = VStr primary ->
  default (VStr "N/A") (emotion_analysis report !! "sentiment") = VStr overall ->
  exists w',
    print_report title report w = (Ok tt, w')
    /\ stdout w'
       = stdout w ++ report_lines (title primary) (title overall) report
    /\ invocations w' = invocations w /\ clock w' = clock w
    /\ length (stdout w')
       = length (stdout w) + 13
         + length (section_lines "" (emotional_insights (feedback report)))
         + length (section_lines "" (code_suggestions (feedback report)))
         + length (section_lines ""
                     (technical_recommendations (feedback report)))
         + length (section_lines "" (motivational_notes (feedback report))).
Proof.
  intros He Hs. eexists. rewrite (print_report_lines _ _ _ _ _ He Hs).
  split_and!; [done..|]. simpl. unfold report_lines.
  assert (Hlen : forall h l,
    length (section_lines h l) = length (section_lines "" l)).
  { intros h l. destruct l; [done|]. simpl. by rewrite !length_map. }
  rewrite !length_app. simpl.
  rewrite (Hlen _ (emotional_insights _)), (Hlen _ (code_suggestions _)),
    (Hlen _ (technical_recommendations _)), (Hlen _ (motivational_notes _)).
  lia.
Qed.

Lemma print_report_output_witness :
  exists w',
    print_report Str.lower
      (MkReport "Developer" "now" neutral_default (Metrics 1 0 0)
         (MkFeedback ["be kind"] [] [] []))
      fresh_world = (Ok tt, w')
    /\ stdout w'
       = stdout fresh_world
         ++ report_lines (Str.lower "neutral") (Str.lower "neutral")
              (MkReport "Developer" "now" neutral_default (Metrics 1 0 0)
                 (MkFeedback ["be kind"] [] [] []))
    /\ invocations w' = invocations fresh_world
    /\ clock w' = clock fresh_world
    /\ length (stdout w')
       = length (stdout fresh_world) + 13
         + length (section_lines "" ["be kind"])
         + length (section_lines "" []) + length (section_lines "" [])
         + length (section_lines "" []).
Proof.
  apply (print_report_output Str.lower
           (MkReport "Developer" "now" neutral_default (Metrics 1 0 0)
              (MkFeedback ["be kind"] [] [] []))
           fresh_world "neutral" "neutral"); reflexivity.
Defined.

Lemma review_then_print self code_text commit_message developer_name title w :
  exists report w1 primary overall,
    review_code self code_text commit_message developer_name w
      = (Ok report, w1)
    /\ print_report title report w1
       = (Ok tt, printed w1 (report_lines (title primary) (title overall) report))
    /\ emotion_analysis report !! "emotion" = Some (VStr primary)
    /\ emotion_analysis report !! "sentiment" = Some (VStr overall).
Proof.
  destruct (analyze_returns self
    (text_for_analysis (extract_code_context code_text) commit_message)
    (World (stdout w ++ [looking_line developer_name]) (invocations w)
       (clock w))) as (ea & w1 & Hea).
  destruct (analyze_frame _ _ _ _ _ Hea) as (_ & _ & e & s & He & Hs).
  eexists _, w1, e, s. rewrite (review_code_unfold _ _ _ _ _ _ _ Hea).
  split_and!; [done| |done..].
  apply print_report_lines; simpl; by rewrite ?He, ?Hs.
Qed.

(** X19: a report made by a review is always printable: whatever the
    models returned, its emotion and sentiment entries are strings, and
    printing it raises nothing, invokes no model and adds at least thirteen
    lines. *)
Theorem review_report_prints self code_text commit_message developer_name
    title w :
  exists report w1 w2,
    review_code self code_text commit_message developer_name w
      = (Ok report, w1)
    /\ print_report title report w1 = (Ok tt, w2)
    /\ invocations w2 = invocations w1
    /\ length (stdout w1) + 13 <= length (stdout w2).
Proof.
  destruct (review_then_print self code_text commit_message developer_name
              title w) as (report & w1 & e & s & Hr & Hp & _).
  exists report, w1,
    (printed w1 (report_lines (title e) (title s) report)).
  split_and!; [done..|].
  simpl. unfold report_lines. rewrite !length_app. simpl. lia.
Qed.

(** ** main *)

Lemma init_loaded self w : init (Ok self) w = (Ok self, printed w loading_lines).
Proof. unfold init, bind, print, ret, printed. simpl. by rewrite <- app_assoc. Qed.

Lemma main_loaded self fs title args w :
  main (Ok self) fs title args w
  = (if demo args then
       let* _ := print " Running demo with emotionally-charged sample code..." in
       let* report :=
         review_code self sample_code demo_commit_msg "Demo Developer" in
       print_report title report
     else
       match file_given args with
       | Some path =>
           match fs path with
           | Content code =>
               try_except
                 (let* report :=
                    review_code self code (commit args) (name args) in
                  print_report title report)
                 (fun e => print (" Error reading file: " +:+ e))
           | NotFound => print (" File " +:+ path +:+ " not found!")
           | ReadError e => print (" Error reading file: " +:+ e)
           end
       | None =>
           let* _ := print " Please provide --file or use --demo" in
           let* _ := print "Example: python emotion_code_reviewer.py --demo" in
           print "         python emotion_code_reviewer.py --file my_script.py --commit 'Added new feature'"
       end) (printed w loading_lines).
Proof. unfold main. unfold bind at 1. by rewrite init_loaded. Qed.

Lemma review_and_print self code_text commit_message developer_name title w :
  exists report w1 w2,
    review_code self code_text commit_message developer_name w
      = (Ok report, w1)
    /\ print_report title report w1 = (Ok tt, w2)
    /\ (let* report :=
          review_code self code_text commit_message developer_name in
        print_report title report) w = (Ok tt, w2).
Proof.
  destruct (review_then_print self code_text commit_message developer_name
              title w) as (report & w1 & e & s & Hr & Hp & _).
  eexists report, w1, _. split_and!; [done..|].
  unfold bind. by rewrite Hr.
Qed.

(** X20: [main] raises only when loading the models raises, and then
    right after the first line; once the models are loaded it returns
    normally on every command line, file system and model behaviour. *)
Theorem main_raises_only_on_load fs title args w :
  (forall self, exists w', main (Ok self) fs title args w = (Ok tt, w'))
  /\ (forall e,
        main (Raise e) fs title args w
        = (Raise e, printed w [" Loading emotion analysis models..."])).
Proof.
  split; [|done]. intros self. rewrite main_loaded.
  destruct (demo args).
  - unfold bind at 1. rewrite print_printed.
    destruct (review_and_print self sample_code demo_commit_msg
                "Demo Developer" title
                (printed (printed w loading_lines)
                   [" Running demo with emotionally-charged sample code..."]))
      as (report & w1 & w2 & _ & _ & ->). by eexists.
  - destruct (file_given args) as [path|]; [|by eexists].
    destruct (fs path) as [code| |e]; [|by eexists..].
    unfold try_except.
    destruct (review_and_print self code (commit args) (name args) title
                (printed w loading_lines)) as (report & w1 & w2 & _ & _ & ->).
    by eexists.
Qed.

(** X21: without [--demo] and without a file (no [--file], or an empty
    one), [main] loads the models all the same, prints the usage guidance
    and returns; no model is invoked. *)
Theorem main_usage self fs title args w :
  demo args = false ->
  file args = None \/ file args = Some "" ->
  main (Ok self) fs title args w
  = (Ok tt, printed w (loading_lines ++ usage_lines)).
Proof.
  intros Hd Hf. rewrite main_loaded, Hd.
  assert (file_given args = None) as ->.
  { unfold file_given. by destruct Hf as [->| ->]. }
  unfold bind. rewrite !print_printed, !printed_printed. done.
Qed.

Lemma main_usage_witness :
  main (Ok joyful) (fun _ => NotFound) Str.lower
    (Args (Some "") "" "Developer" false) fresh_world
  = (Ok tt, printed fresh_world (loading_lines ++ usage_lines)).
Proof. apply main_usage; [reflexivity|by right]. Defined.

(** X22: a file that cannot be read ends the run with one message and
    without a review: [File ... not found!] for a missing file, [Error
    reading file: ...] for any other failure; no model is invoked. *)
Theorem main_unreadable_file self fs title args (path : string) w :
  demo args = false -> file args = Some path -> path <> "" ->
  (fs path = NotFound ->
   main (Ok self) fs title args w
   = (Ok tt,
      printed w (loading_lines ++ [" File " +:+ path +:+ " not found!"])))
  /\ (forall e, fs path = ReadError e ->
        main (Ok self) fs title args w
        = (Ok tt,
           printed w (loading_lines ++ [" Error reading file: " +:+ e]))).
Proof.
  intros Hd Hf Hne.
  assert (file_given args = Some path) as Hg.
  { unfold file_given. rewrite Hf. by destruct path. }
  split; [intros Hfs|intros e Hfs]; rewrite main_loaded, Hd, Hg, Hfs;
    by rewrite print_printed, printed_printed.
Qed.

Lemma main_unreadable_file_witness :
  main (Ok joyful) (fun _ => NotFound) Str.lower
    (Args (Some "missing.py") "" "Developer" false) fresh_world
  = (Ok tt,
     printed fresh_world
       (loading_lines ++ [" File " +:+ "missing.py" +:+ " not found!"])).
Proof.
  apply (main_unreadable_file joyful (fun _ => NotFound) Str.lower
           (Args (Some "missing.py") "" "Developer" false) "missing.py");
    [reflexivity|reflexivity|discriminate|reflexivity].
Defined.

(** X23: [--demo] takes precedence: with it, the file, the commit message
    and the developer name of the command line are ignored, and no file is
    read. *)
Theorem main_demo_precedence loaded fs fs' title args :
  demo args = true ->
  main loaded fs title args
  = main loaded fs' title (Args None "" "Developer" true).
Proof. intros Hd. unfold main. by rewrite Hd. Qed.

Lemma main_demo_precedence_witness :
  main (Ok joyful) (fun _ => NotFound) Str.lower
    (Args (Some "a.py") "wip" "Ada" true)
  = main (Ok joyful) (fun _ => Content "x = 1") Str.lower
      (Args None "" "Developer" true).
Proof. apply main_demo_precedence. reflexivity. Defined.

(** X24: for a readable file [main] runs the review on its content with
    the commit message and the name of the command line and prints the
    report; the handlers of the [try] are not reached. *)
Theorem main_reviews_file self fs title args (path code : string) w :
  demo args = false -> file args = Some path -> path <> "" ->
  fs path = Content code ->
  exists report w1 w2,
    review_code self code (commit args) (name args) (printed w loading_lines)
      = (Ok report, w1)
    /\ print_report title report w1 = (Ok tt, w2)
    /\ main (Ok self) fs title args w = (Ok tt, w2).
Proof.
  intros Hd Hf Hne Hfs.
  assert (file_given args = Some path) as Hg.
  { unfold file_given. rewrite Hf. by destruct path. }
  destruct (review_and_print self code (commit args) (name args) title
              (printed w loading_lines)) as (report & w1 & w2 & Hr & Hp & Hb).
  exists report, w1, w2. split_and!; [done..|].
  rewrite main_loaded, Hd, Hg, Hfs. unfold try_except. by rewrite Hb.
Qed.

Lemma main_reviews_file_witness :
  exists report w1 w2,
    review_code joyful "x = 1" "" "Developer"
      (printed fresh_world loading_lines) = (Ok report, w1)
    /\ print_report Str.lower report w1 = (Ok tt, w2)
    /\ main (Ok joyful) (fun _ => Content "x = 1") Str.lower
         (Args (Some "a.py") "" "Developer" false) fresh_world = (Ok tt, w2).
Proof.
  apply (main_reviews_file joyful (fun _ => Content "x = 1") Str.lower
           (Args (Some "a.py") "" "Developer" false) "a.py" "x = 1");
    [reflexivity|reflexivity|discriminate|reflexivity].
Defined.
